(** * jx create gke-service-account: a shallow embedding of
      pkg/jx/cmd/create_gke_service_account.go

    The command is a short, linear, interactive workflow.  Its own code is
    embedded below function by function; everything it calls in other
    packages (gcloud login, the survey prompts, the gke helpers, the logger)
    is a collaborator: its answers are read from a [Collaborators] record
    and every call is appended to a trace, so that properties such as
    "no prompt is shown" or "login comes first" can be stated. *)

From Stdlib Require Import String Ascii List Bool Arith Lia.
Import ListNotations.
Open Scope string_scope.

(** ** Go values used by the command *)

(** A non-nil Go [error].  [errorString] is what [errors.New] builds; any
    other error a collaborator hands back is an [opaqueError]. *)
Inductive error_value : Type :=
| errorString (s : string)
| opaqueError (description : string).

(** Go's [error] interface: [None] is [nil]. *)
Definition error : Type := option error_value.

Definition err_nil : error := None.

Definition errors_New (text : string) : error := Some (errorString text).

(** [err != nil] *)
Definition is_set (err : error) : bool :=
  match err with
  | Some _ => true
  | None => false
  end.

(** The dynamic values ([interface{}]) a survey validator can be handed. *)
Inductive interface : Type :=
| iface_string (s : string)
| iface_bool (b : bool)
| iface_nil.

(** [len(str)] on a Go string counts bytes. *)
Definition len (str : string) : nat := String.length str.

(** [len(xs)] on a slice. *)
Definition slice_len {A : Type} (xs : list A) : nat := List.length xs.

(** [xs[i]] on a slice of strings (the command only indexes in range). *)
Definition index (xs : list string) (i : nat) : string := nth i xs "".

Definition LF : string := String (ascii_of_nat 10) EmptyString.

(** ** The command's data *)

Record CreateGkeServiceAccountFlags : Type := {
  Name : string;
  Project : string;
  SkipLogin : bool
}.

Record CreateGkeServiceAccountOptions : Type := {
  Flags : CreateGkeServiceAccountFlags
}.

(** ** Collaborators and the trace of calls *)

(** [util.ColorInfo(x)], the argument given to the logger. *)
Inductive colored : Type :=
| util_ColorInfo (x : string).

Inductive Call : Type :=
| runCommandVerbose_call (name : string) (args : list string)
| survey_Input_prompt (Message : string)
| survey_Input_error (invalid : error_value)
| survey_Confirm_prompt (Message : string) (Default : bool)
| survey_Select_prompt (Message : string) (Options : list string) (Help : string)
| gke_GetGoogleProjects_call
| gke_GetOrCreateServiceAccount_call (name project homeDir : string)
| util_HomeDir_call
| log_Infof_call (format : string) (arg : colored).

(** What a prompt ends with: an answer, or an abort that [survey.AskOne]
    returns as its error. *)
Inductive answer (A : Type) : Type :=
| answered (a : A)
| aborted (e : error_value).

Arguments answered {A} a.
Arguments aborted {A} e.

Record Collaborators : Type := {
  (** result of [o.runCommandVerbose(name, args...)] *)
  runCommandVerbose_result : string -> list string -> error;
  (** the error [survey.AskOne] returns when the text prompt is aborted,
      which is also what happens once the typed lines run out *)
  Input_abort : error_value;
  (** outcome of the yes/no prompt *)
  Confirm_answer : answer bool;
  (** outcome of the single-choice prompt, given its options *)
  Select_answer : list string -> answer string;
  (** result of [gke.GetGoogleProjects()] *)
  GetGoogleProjects_result : list string * error;
  (** result of [gke.GetOrCreateServiceAccount(name, project, homeDir)] *)
  GetOrCreateServiceAccount_result : string -> string -> string -> string * error;
  (** result of [util.HomeDir()] *)
  HomeDir_result : string
}.

(** The mutable part of a run: the receiver [o], the lines the user is
    still going to type at text prompts, and the calls made so far. *)
Record State : Type := {
  opts : CreateGkeServiceAccountOptions;
  keyboard : list string;
  trace : list Call
}.

Definition start (flags : CreateGkeServiceAccountFlags) (typed : list string) : State :=
  {| opts := {| Flags := flags |}; keyboard := typed; trace := [] |}.

(** ** A state monad for the run *)

Definition Cmd (A : Type) : Type := State -> A * State.

Definition ret {A : Type} (a : A) : Cmd A := fun s => (a, s).

Definition bind {A B : Type} (m : Cmd A) (k : A -> Cmd B) : Cmd B :=
  fun s => let (a, s') := m s in k a s'.

Declare Scope cmd_scope.
Delimit Scope cmd_scope with cmd.
Bind Scope cmd_scope with Cmd.

Notation "x <- m ;; k" := (bind m (fun x => k))
  (at level 61, m at next level, right associativity) : cmd_scope.
Notation "' pat <- m ;; k" := (bind m (fun x => match x with pat => k end))
  (at level 61, pat pattern, m at next level, right associativity) : cmd_scope.
Notation "m ;; k" := (bind m (fun _ => k))
  (at level 61, right associativity) : cmd_scope.

Open Scope cmd_scope.

Definition read {A : Type} (f : CreateGkeServiceAccountFlags -> A) : Cmd A :=
  fun s => (f (Flags (opts s)), s).

(** The state after [calls] more calls have been recorded. *)
Definition record (s : State) (calls : list Call) : State :=
  {| opts := opts s; keyboard := keyboard s; trace := trace s ++ calls |}.

Definition call (c : Call) : Cmd unit :=
  fun s => (tt, record s [c]).

(** [o.Flags.Name = v] *)
Definition set_Name (v : string) : Cmd unit :=
  fun s =>
    let f := Flags (opts s) in
    (tt, {| opts := {| Flags := {| Name := v; Project := Project f; SkipLogin := SkipLogin f |} |};
            keyboard := keyboard s; trace := trace s |}).

(** [o.Flags.Project = v] *)
Definition set_Project (v : string) : Cmd unit :=
  fun s =>
    let f := Flags (opts s) in
    (tt, {| opts := {| Flags := {| Name := Name f; Project := v; SkipLogin := SkipLogin f |} |};
            keyboard := keyboard s; trace := trace s |}).

(** [first ;; if err != nil { return err } ;; rest] *)
Definition and_then (first rest : Cmd error) : Cmd error :=
  err <- first ;;
  if is_set err then ret err else rest.

Section Command.

Variable env : Collaborators.

(** ** Collaborator calls *)

Definition runCommandVerbose (name : string) (args : list string) : Cmd error :=
  call (runCommandVerbose_call name args) ;;
  ret (runCommandVerbose_result env name args).

Definition gke_GetGoogleProjects : Cmd (list string * error) :=
  call gke_GetGoogleProjects_call ;;
  ret (GetGoogleProjects_result env).

Definition gke_GetOrCreateServiceAccount (name project homeDir : string)
  : Cmd (string * error) :=
  call (gke_GetOrCreateServiceAccount_call name project homeDir) ;;
  ret (GetOrCreateServiceAccount_result env name project homeDir).

Definition util_HomeDir : Cmd string :=
  call util_HomeDir_call ;;
  ret (HomeDir_result env).

Definition log_Infof (format : string) (arg : colored) : Cmd unit :=
  call (log_Infof_call format arg).

(** The rounds of a validated text prompt: show the prompt, read a line,
    run the validator on it; on rejection show the validator's error and
    ask again.  Returns the outcome, the lines left, and the calls made. *)
Fixpoint Input_rounds (Message : string) (v : interface -> error) (typed : list string)
  : answer string * list string * list Call :=
  match typed with
  | [] => (aborted (Input_abort env), [], [survey_Input_prompt Message])
  | ans :: rest =>
      match v (iface_string ans) with
      | None => (answered ans, rest, [survey_Input_prompt Message])
      | Some invalid =>
          let '(r, rest', calls) := Input_rounds Message v rest in
          (r, rest', survey_Input_prompt Message :: survey_Input_error invalid :: calls)
      end
  end.

(** [survey.AskOne(&survey.Input{Message}, &response, v)]: the new value of
    [response] (untouched on error) and the error. *)
Definition survey_AskOne_Input (Message : string) (response : string)
    (v : interface -> error) : Cmd (string * error) :=
  fun s =>
    let '(r, rest, calls) := Input_rounds Message v (keyboard s) in
    let s' := {| opts := opts s; keyboard := rest; trace := trace s ++ calls |} in
    match r with
    | answered ans => ((ans, err_nil), s')
    | aborted e => ((response, Some e), s')
    end.

(** [survey.AskOne(&survey.Confirm{Message, Default}, &response, nil)] *)
Definition survey_AskOne_Confirm (Message : string) (Default : bool) (response : bool)
  : Cmd (bool * error) :=
  call (survey_Confirm_prompt Message Default) ;;
  match Confirm_answer env with
  | answered b => ret (b, err_nil)
  | aborted e => ret (response, Some e)
  end.

(** [survey.AskOne(&survey.Select{Message, Options, Help}, &response, nil)] *)
Definition survey_AskOne_Select (Message : string) (Options : list string) (Help : string)
    (response : string) : Cmd (string * error) :=
  call (survey_Select_prompt Message Options Help) ;;
  match Select_answer env Options with
  | answered choice => ret (choice, err_nil)
  | aborted e => ret (response, Some e)
  end.

(** ** The command *)

(** The validator closure handed to the name prompt (lines 87-93). *)
Definition nameValidator (val : interface) : error :=
  match val with
  | iface_string str =>
      if (len str <? 6)%nat
      then errors_New "Service Account name must be longer than 5 characters"
      else err_nil
  | _ => errors_New "Service Account name must be longer than 5 characters"
  end.

(** Lines 160-164 of [getGoogleProjectId]: the check every branch that
    does not return early falls into. *)
Definition getGoogleProjectId_check (projectId : string) : Cmd (string * error) :=
  if projectId =? ""
  then ret ("", errors_New "no Google Cloud Project to create cluster in, please manual create one and rerun this wizard")
  else ret (projectId, err_nil).

(** [func (o *CreateGkeServiceAccountOptions) getGoogleProjectId() (string, error)] *)
Definition getGoogleProjectId : Cmd (string * error) :=
  '(existingProjects, err) <- gke_GetGoogleProjects ;;
  if is_set err then ret ("", err) else
  let projectId := "" in
  if (slice_len existingProjects =? 0)%nat then
    let flag := true in
    '(flag, err) <- survey_AskOne_Confirm
                      "No existing Google Projects exist, create one now?" true flag ;;
    if is_set err then ret ("", err) else
    if negb flag then
      ret ("", errors_New "no google project to create cluster in, please manual create one and rerun this wizard")
    else if flag then
      ret ("", errors_New "auto creating projects not yet implemented, please manually create one and rerun the wizard")
    else getGoogleProjectId_check projectId
  else if (slice_len existingProjects =? 1)%nat then
    let projectId := index existingProjects 0 in
    log_Infof ("Using the only Google Cloud Project %s to create the cluster" ++ LF)
              (util_ColorInfo projectId) ;;
    getGoogleProjectId_check projectId
  else
    '(projectId, err) <- survey_AskOne_Select "Google Cloud Project:" existingProjects
                           "Select a Google Project to create the cluster in" projectId ;;
    if is_set err then ret ("", err) else
    getGoogleProjectId_check projectId.

(** Lines 75-80 of [Run]: the login step. *)
Definition Run_login : Cmd error :=
  skip <- read SkipLogin ;;
  if negb skip
  then runCommandVerbose "gcloud" ["auth"; "login"; "--brief"]
  else ret err_nil.

(** Lines 82-99 of [Run]: the name step. *)
Definition Run_name : Cmd error :=
  name <- read Name ;;
  if name =? "" then
    '(name', err) <- survey_AskOne_Input "Name for the service account" name nameValidator ;;
    set_Name name' ;;
    ret err
  else ret err_nil.

(** Lines 101-107 of [Run]: the project step. *)
Definition Run_project : Cmd error :=
  project <- read Project ;;
  if project =? "" then
    '(projectId, err) <- getGoogleProjectId ;;
    if is_set err then ret err else
    set_Project projectId ;;
    ret err_nil
  else ret err_nil.

(** Lines 109-116 of [Run]: the account step. *)
Definition Run_account : Cmd error :=
  name <- read Name ;;
  project <- read Project ;;
  homeDir <- util_HomeDir ;;
  '(path, err) <- gke_GetOrCreateServiceAccount name project homeDir ;;
  if is_set err then ret err else
  log_Infof ("Created service account key %s" ++ LF) (util_ColorInfo path) ;;
  ret err_nil.

(** [func (o *CreateGkeServiceAccountOptions) Run() error] *)
Definition Run : Cmd error :=
  and_then Run_login (and_then Run_name (and_then Run_project Run_account)).

End Command.

(** ** Names for the calls the command makes *)

Definition guidance_no_project : error :=
  errors_New "no Google Cloud Project to create cluster in, please manual create one and rerun this wizard".

Definition Select_prompt_shown (existingProjects : list string) : Call :=
  survey_Select_prompt "Google Cloud Project:" existingProjects
    "Select a Google Project to create the cluster in".

Definition Confirm_prompt_shown : Call :=
  survey_Confirm_prompt "No existing Google Projects exist, create one now?" true.

Definition only_project_notice (projectId : string) : Call :=
  log_Infof_call ("Using the only Google Cloud Project %s to create the cluster" ++ LF)
    (util_ColorInfo projectId).

Definition login_call : Call :=
  runCommandVerbose_call "gcloud" ["auth"; "login"; "--brief"].

Definition name_prompt_shown : Call :=
  survey_Input_prompt "Name for the service account".

Definition key_notice (path : string) : Call :=
  log_Infof_call ("Created service account key %s" ++ LF) (util_ColorInfo path).

(** Which calls belong to the project resolver: the project listing, its two
    prompts and its notice. *)
Definition resolver_call (c : Call) : bool :=
  match c with
  | gke_GetGoogleProjects_call => true
  | survey_Confirm_prompt _ _ => true
  | survey_Select_prompt _ _ _ => true
  | log_Infof_call format _ =>
      format =? "Using the only Google Cloud Project %s to create the cluster" ++ LF
  | _ => false
  end.

Definition is_login_call (c : Call) : bool :=
  match c with
  | runCommandVerbose_call _ _ => true
  | _ => false
  end.

Definition is_Input_call (c : Call) : bool :=
  match c with
  | survey_Input_prompt _ => true
  | survey_Input_error _ => true
  | _ => false
  end.

Definition flags_of (s : State) : CreateGkeServiceAccountFlags := Flags (opts s).

(** The calls of the account step of [Run]. *)
Definition account_calls (env : Collaborators) (s : State) (path : string) (err : error) : list Call :=
  [util_HomeDir_call;
   gke_GetOrCreateServiceAccount_call (Name (flags_of s)) (Project (flags_of s))
     (HomeDir_result env)]
  ++ (if is_set err then [] else [key_notice path]).

(** ** Sample collaborators

    A user whose login works, with home directory /home/jx, facing a cloud
    account that lists [projects], answering the yes/no prompt with
    [confirm] and the selection prompt with [select]; the key file ends up
    at [path]. *)
Definition sample (projects : list string) (confirm : answer bool)
    (select : answer string) (path : string) : Collaborators :=
  {| runCommandVerbose_result := fun _ _ => err_nil;
     Input_abort := errorString "interrupt";
     Confirm_answer := confirm;
     Select_answer := fun _ => select;
     GetGoogleProjects_result := (projects, err_nil);
     GetOrCreateServiceAccount_result := fun _ _ _ => (path, err_nil);
     HomeDir_result := "/home/jx" |}.

(** The same user when [gcloud auth login] fails. *)
Definition sample_login_fails : Collaborators :=
  {| runCommandVerbose_result := fun _ _ => Some (opaqueError "exit status 1");
     Input_abort := errorString "interrupt";
     Confirm_answer := answered true;
     Select_answer := fun _ => aborted (errorString "interrupt");
     GetGoogleProjects_result := (["only-proj"], err_nil);
     GetOrCreateServiceAccount_result := fun _ _ _ => ("/home/jx/.jx/key.json", err_nil);
     HomeDir_result := "/home/jx" |}.

(** A run that starts with no flag given except --skip-login. *)
Definition bare : State := start {| Name := ""; Project := ""; SkipLogin := true |} [].

(** ** More names for the properties of the run *)

(** The calls of the login step. *)
Definition login_calls (flags : CreateGkeServiceAccountFlags) : list Call :=
  if SkipLogin flags then [] else [login_call].

(** The login step lets the run go on: it is skipped, or gcloud succeeds. *)
Definition login_passes (env : Collaborators) (flags : CreateGkeServiceAccountFlags) : Prop :=
  SkipLogin flags = true \/
  runCommandVerbose_result env "gcloud" ["auth"; "login"; "--brief"] = err_nil.

Definition name_rejected : Call :=
  survey_Input_error (errorString "Service Account name must be longer than 5 characters").

(** One round of the name prompt per line that is turned down. *)
Definition rejected_rounds (short : list string) : list Call :=
  flat_map (fun _ => [name_prompt_shown; name_rejected]) short.

(** The calls a run can make before its account step. *)
Definition before_account (c : Call) : bool :=
  is_login_call c || is_Input_call c || resolver_call c.

Definition is_account_call (c : Call) : bool :=
  match c with
  | gke_GetOrCreateServiceAccount_call _ _ _ => true
  | _ => false
  end.

Definition is_key_notice (c : Call) : bool :=
  match c with
  | log_Infof_call format _ => format =? "Created service account key %s" ++ LF
  | _ => false
  end.

(** The sample user when the project listing fails. *)
Definition sample_listing_fails : Collaborators :=
  {| runCommandVerbose_result := fun _ _ => err_nil;
     Input_abort := errorString "interrupt";
     Confirm_answer := answered true;
     Select_answer := fun _ => answered "x";
     GetGoogleProjects_result := ([], Some (opaqueError "exit status 1"));
     GetOrCreateServiceAccount_result := fun _ _ _ => ("/home/jx/.jx/key.json", err_nil);
     HomeDir_result := "/home/jx" |}.

(** The sample user when the account cannot be created. *)
Definition sample_account_fails : Collaborators :=
  {| runCommandVerbose_result := fun _ _ => err_nil;
     Input_abort := errorString "interrupt";
     Confirm_answer := answered true;
     Select_answer := fun _ => answered "x";
     GetGoogleProjects_result := (["only-proj"], err_nil);
     GetOrCreateServiceAccount_result := fun _ _ _ => ("", Some (opaqueError "exit status 1"));
     HomeDir_result := "/home/jx" |}.

(** * Properties *)

(** ** Bookkeeping on states *)

Lemma record_record (s : State) (a b : list Call) :
  record (record s a) b = record s (a ++ b).
Proof.
  unfold record; simpl. now rewrite <- app_assoc.
Qed.

Lemma string_eqb_empty (x : string) : (x =? "") = false <-> x <> "".
Proof.
  apply String.eqb_neq.
Qed.

(** ** The text prompt *)

Section InputPrompt.

Variable env : Collaborators.
Variable Message : string.
Variable v : interface -> error.

(** An answer that comes out of the prompt passed the validator. *)
Lemma Input_rounds_answer_valid (typed : list string) :
  forall ans rest calls,
    Input_rounds env Message v typed = (answered ans, rest, calls) ->
    v (iface_string ans) = err_nil.
Proof.
  induction typed as [| line typed IH]; simpl; intros ans rest calls H.
  - discriminate.
  - destruct (v (iface_string line)) as [invalid |] eqn:Hv.
    + destruct (Input_rounds env Message v typed) as [[r rest'] calls'].
      inversion H; subst. eapply IH; reflexivity.
    + inversion H; subst. exact Hv.
Qed.

(** The prompt talks to nobody but the user. *)
Lemma Input_rounds_calls (typed : list string) :
  forall r rest calls c,
    Input_rounds env Message v typed = (r, rest, calls) ->
    In c calls ->
    c = survey_Input_prompt Message \/ exists invalid, c = survey_Input_error invalid.
Proof.
  induction typed as [| line typed IH]; simpl; intros r rest calls c H Hin.
  - inversion H; subst. destruct Hin as [<- | []]. now left.
  - destruct (v (iface_string line)) as [invalid |].
    + destruct (Input_rounds env Message v typed) as [[r' rest'] calls'] eqn:E.
      inversion H; subst.
      destruct Hin as [<- | [<- | Hin]].
      * now left.
      * right. now exists invalid.
      * eapply IH; [reflexivity | exact Hin].
    + inversion H; subst. destruct Hin as [<- | []]. now left.
Qed.

End InputPrompt.

(** ** The name validator *)

(** C1.  The validator the name prompt is given rejects every name shorter
    than 6 bytes, with the "must be longer than 5 characters" error, and
    accepts every name of 6 bytes or more. *)
Theorem nameValidator_threshold (str : string) :
  (len str < 6 ->
   nameValidator (iface_string str)
   = errors_New "Service Account name must be longer than 5 characters") /\
  (6 <= len str -> nameValidator (iface_string str) = err_nil).
Proof.
  unfold nameValidator. split; intros H.
  - apply Nat.ltb_lt in H. now rewrite H.
  - apply Nat.ltb_ge in H. now rewrite H.
Qed.

Lemma nameValidator_string (str : string) :
  nameValidator (iface_string str)
  = if (len str <? 6)%nat
    then errors_New "Service Account name must be longer than 5 characters"
    else err_nil.
Proof.
  reflexivity.
Qed.

Lemma nameValidator_accepts_iff (str : string) :
  nameValidator (iface_string str) = err_nil <-> 6 <= len str.
Proof.
  unfold nameValidator. destruct (len str <? 6)%nat eqn:E.
  - apply Nat.ltb_lt in E. split; [discriminate | lia].
  - apply Nat.ltb_ge in E. split; auto.
Qed.

(** Anything that is not a string is rejected as well. *)
Lemma nameValidator_not_a_string (val : interface) :
  (forall str, val <> iface_string str) -> nameValidator val <> err_nil.
Proof.
  intros H. destruct val; simpl; try discriminate.
  now contradiction (H s).
Qed.

Lemma nameValidator_threshold_witness :
  nameValidator (iface_string "abc")
  = errors_New "Service Account name must be longer than 5 characters"
  /\ nameValidator (iface_string "abcdef") = err_nil.
Proof.
  split.
  - apply (proj1 (nameValidator_threshold "abc")). vm_compute. lia.
  - apply (proj2 (nameValidator_threshold "abcdef")). vm_compute. lia.
Defined.

(** The name prompt takes a typed line of 6 bytes or more as the name. *)
Lemma name_prompt_accepts (env : Collaborators) (s : State) (str : string)
    (rest : list string) :
  Name (flags_of s) = "" ->
  keyboard s = str :: rest ->
  6 <= len str ->
  Run_name env s
  = (err_nil,
     {| opts := {| Flags := {| Name := str; Project := Project (flags_of s);
                               SkipLogin := SkipLogin (flags_of s) |} |};
        keyboard := rest;
        trace := trace s ++ [name_prompt_shown] |}).
Proof.
  intros Hn Hk Hlen.
  unfold Run_name, survey_AskOne_Input, set_Name, read, bind, ret, flags_of in *.
  cbn -[nameValidator Input_rounds]. rewrite Hn.
  cbn -[nameValidator Input_rounds]. rewrite Hk.
  cbn -[nameValidator].
  now rewrite (proj2 (nameValidator_accepts_iff str) Hlen).
Qed.

(** On a shorter line it shows the validator's error and asks again. *)
Lemma name_prompt_rejects (env : Collaborators) (s : State) (str : string)
    (rest : list string) :
  Name (flags_of s) = "" ->
  keyboard s = str :: rest ->
  len str < 6 ->
  Run_name env s
  = Run_name env
      {| opts := opts s;
         keyboard := rest;
         trace := trace s ++ [name_prompt_shown;
                              survey_Input_error
                                (errorString "Service Account name must be longer than 5 characters")] |}.
Proof.
  intros Hn Hk Hlen.
  unfold Run_name, survey_AskOne_Input, set_Name, read, bind, ret, flags_of in *.
  cbn -[nameValidator Input_rounds]. rewrite Hn.
  cbn -[nameValidator Input_rounds]. rewrite Hk.
  cbn -[nameValidator].
  rewrite nameValidator_string. apply Nat.ltb_lt in Hlen. rewrite Hlen.
  cbn -[nameValidator].
  destruct (Input_rounds env _ nameValidator rest) as [[r rest'] calls].
  destruct r; simpl; now rewrite <- app_assoc.
Qed.

(** ** The project resolver *)

Ltac run_cmd :=
  unfold getGoogleProjectId, getGoogleProjectId_check, gke_GetGoogleProjects,
    survey_AskOne_Confirm, survey_AskOne_Select, log_Infof, call, bind, ret;
  simpl.

Section Resolver.

Variable env : Collaborators.
Variable s : State.

(** What the resolver does when there is exactly one project. *)
Lemma getGoogleProjectId_one (p : string) :
  GetGoogleProjects_result env = ([p], err_nil) ->
  getGoogleProjectId env s
  = (if p =? "" then ("", guidance_no_project) else (p, err_nil),
     record s [gke_GetGoogleProjects_call; only_project_notice p]).
Proof.
  intros Hp. run_cmd. rewrite Hp. simpl.
  rewrite record_record. simpl.
  unfold index; simpl. now destruct (p =? "").
Qed.

(** What the resolver does when there are several projects and the
    selection prompt is answered. *)
Lemma getGoogleProjectId_many (ps : list string) (choice : string) :
  GetGoogleProjects_result env = (ps, err_nil) ->
  1 < slice_len ps ->
  Select_answer env ps = answered choice ->
  getGoogleProjectId env s
  = (if choice =? "" then ("", guidance_no_project) else (choice, err_nil),
     record s [gke_GetGoogleProjects_call; Select_prompt_shown ps]).
Proof.
  intros Hp Hlen Hsel. run_cmd. rewrite Hp. simpl.
  destruct ps as [| a [| b ps']]; unfold slice_len in Hlen; simpl in Hlen; try lia.
  simpl. rewrite Hsel. rewrite record_record. simpl.
  now destruct (choice =? "").
Qed.

(** What the resolver does when there is no project and the yes/no prompt
    is answered. *)
Lemma getGoogleProjectId_none (flag : bool) :
  GetGoogleProjects_result env = ([], err_nil) ->
  Confirm_answer env = answered flag ->
  getGoogleProjectId env s
  = (("", if flag
          then errors_New "auto creating projects not yet implemented, please manually create one and rerun the wizard"
          else errors_New "no google project to create cluster in, please manual create one and rerun this wizard"),
     record s [gke_GetGoogleProjects_call; Confirm_prompt_shown]).
Proof.
  intros Hp Hc. run_cmd. rewrite Hp. simpl. rewrite Hc.
  rewrite record_record. simpl. now destruct flag.
Qed.

(** The resolver's two outcomes: a non-empty project with a nil error, or
    the empty string with an error. *)
Lemma getGoogleProjectId_outcome :
  forall projectId err s',
    getGoogleProjectId env s = ((projectId, err), s') ->
    (err = err_nil /\ projectId <> "") \/ (err <> err_nil /\ projectId = "").
Proof.
  intros projectId err s'. run_cmd.
  destruct (GetGoogleProjects_result env) as [ps [e |]]; simpl.
  { intros H; inversion H; subst. right. split; [discriminate | reflexivity]. }
  destruct ps as [| a [| b ps']]; simpl.
  - destruct (Confirm_answer env) as [[|] | e]; simpl;
      intros H; inversion H; subst; right; split; (discriminate || reflexivity).
  - unfold index; simpl. destruct (a =? "") eqn:Ea;
      intros H; inversion H; subst.
    + right. split; [discriminate | reflexivity].
    + left. split; [reflexivity | now apply string_eqb_empty].
  - destruct (Select_answer env (a :: b :: ps')) as [choice | e]; simpl.
    + destruct (choice =? "") eqn:Ec; intros H; inversion H; subst.
      * right. split; [discriminate | reflexivity].
      * left. split; [reflexivity | now apply string_eqb_empty].
    + intros H; inversion H; subst. right. split; [discriminate | reflexivity].
Qed.

End Resolver.

(** C4.  When the project listing holds exactly one project, the resolver
    returns that project with a nil error; the only calls it makes are the
    listing and the notice that names the project, so no prompt is shown.
    A project id is a non-empty string, which is what [p <> ""] says. *)
Theorem getGoogleProjectId_single_project (env : Collaborators) (s : State) (p : string) :
  GetGoogleProjects_result env = ([p], err_nil) ->
  p <> "" ->
  getGoogleProjectId env s
  = ((p, err_nil), record s [gke_GetGoogleProjects_call; only_project_notice p]).
Proof.
  intros Hp Hne. rewrite (getGoogleProjectId_one env s p Hp).
  apply string_eqb_empty in Hne. now rewrite Hne.
Qed.

Lemma getGoogleProjectId_single_project_witness :
  getGoogleProjectId (sample ["proj-1"] (answered true) (answered "x") "k") bare
  = (("proj-1", err_nil),
     record bare [gke_GetGoogleProjects_call; only_project_notice "proj-1"]).
Proof.
  apply (getGoogleProjectId_single_project
           (sample ["proj-1"] (answered true) (answered "x") "k") bare "proj-1").
  - reflexivity.
  - discriminate.
Defined.

(** C5.  When the project listing holds more than one project, the
    resolver shows one selection prompt over the whole listing and returns
    the project the prompt answers with, with a nil error.  A project id is
    a non-empty string, which is what [choice <> ""] says. *)
Theorem getGoogleProjectId_selected_project (env : Collaborators) (s : State)
    (ps : list string) (choice : string) :
  GetGoogleProjects_result env = (ps, err_nil) ->
  1 < slice_len ps ->
  Select_answer env ps = answered choice ->
  choice <> "" ->
  getGoogleProjectId env s
  = ((choice, err_nil), record s [gke_GetGoogleProjects_call; Select_prompt_shown ps]).
Proof.
  intros Hp Hlen Hsel Hne.
  rewrite (getGoogleProjectId_many env s ps choice Hp Hlen Hsel).
  apply string_eqb_empty in Hne. now rewrite Hne.
Qed.

Lemma getGoogleProjectId_selected_project_witness :
  getGoogleProjectId (sample ["a"; "b"; "c"] (answered true) (answered "b") "k") bare
  = (("b", err_nil),
     record bare [gke_GetGoogleProjects_call; Select_prompt_shown ["a"; "b"; "c"]]).
Proof.
  apply (getGoogleProjectId_selected_project
           (sample ["a"; "b"; "c"] (answered true) (answered "b") "k") bare
           ["a"; "b"; "c"] "b").
  - reflexivity.
  - unfold slice_len; simpl; lia.
  - reflexivity.
  - discriminate.
Defined.

(** C6.  With an empty project listing and the yes/no prompt answered "no",
    the resolver returns the empty string together with the error that asks
    for a project to be created by hand; it has listed the projects and
    shown the yes/no prompt, nothing else. *)
Theorem getGoogleProjectId_no_projects_declined (env : Collaborators) (s : State) :
  GetGoogleProjects_result env = ([], err_nil) ->
  Confirm_answer env = answered false ->
  getGoogleProjectId env s
  = (("", errors_New "no google project to create cluster in, please manual create one and rerun this wizard"),
     record s [gke_GetGoogleProjects_call; Confirm_prompt_shown]).
Proof.
  intros Hp Hc. now rewrite (getGoogleProjectId_none env s false Hp Hc).
Qed.

Lemma getGoogleProjectId_no_projects_declined_witness :
  getGoogleProjectId (sample [] (answered false) (answered "x") "k") bare
  = (("", errors_New "no google project to create cluster in, please manual create one and rerun this wizard"),
     record bare [gke_GetGoogleProjects_call; Confirm_prompt_shown]).
Proof.
  apply (getGoogleProjectId_no_projects_declined
           (sample [] (answered false) (answered "x") "k") bare); reflexivity.
Defined.

(** C7.  With an empty project listing and the yes/no prompt answered
    "yes", the resolver returns the empty string together with the "auto
    creating projects not yet implemented" error; no project is created
    (the only calls are the listing and the prompt). *)
Theorem getGoogleProjectId_no_projects_accepted (env : Collaborators) (s : State) :
  GetGoogleProjects_result env = ([], err_nil) ->
  Confirm_answer env = answered true ->
  getGoogleProjectId env s
  = (("", errors_New "auto creating projects not yet implemented, please manually create one and rerun the wizard"),
     record s [gke_GetGoogleProjects_call; Confirm_prompt_shown]).
Proof.
  intros Hp Hc. now rewrite (getGoogleProjectId_none env s true Hp Hc).
Qed.

Lemma getGoogleProjectId_no_projects_accepted_witness :
  getGoogleProjectId (sample [] (answered true) (answered "x") "k") bare
  = (("", errors_New "auto creating projects not yet implemented, please manually create one and rerun the wizard"),
     record bare [gke_GetGoogleProjects_call; Confirm_prompt_shown]).
Proof.
  apply (getGoogleProjectId_no_projects_accepted
           (sample [] (answered true) (answered "x") "k") bare); reflexivity.
Defined.

(** C8.  Whatever the collaborators answer, a resolver result with a nil
    error carries a non-empty project; and a branch that leaves the project
    empty (the single listed project is empty, or the selection prompt
    answers the empty string) ends in the "no Google Cloud Project"
    guidance error. *)
Theorem getGoogleProjectId_never_empty (env : Collaborators) (s : State) :
  (forall projectId s',
      getGoogleProjectId env s = ((projectId, err_nil), s') -> projectId <> "") /\
  getGoogleProjectId_check "" s = (("", guidance_no_project), s) /\
  (GetGoogleProjects_result env = ([""], err_nil) ->
   fst (getGoogleProjectId env s) = ("", guidance_no_project)) /\
  (forall ps,
      GetGoogleProjects_result env = (ps, err_nil) ->
      1 < slice_len ps ->
      Select_answer env ps = answered "" ->
      fst (getGoogleProjectId env s) = ("", guidance_no_project)).
Proof.
  repeat split.
  - intros projectId s' H.
    destruct (getGoogleProjectId_outcome env s _ _ _ H) as [[_ Hne] | [Hset _]].
    + exact Hne.
    + now contradiction Hset.
  - intros Hp. now rewrite (getGoogleProjectId_one env s "" Hp).
  - intros ps Hp Hlen Hsel. now rewrite (getGoogleProjectId_many env s ps "" Hp Hlen Hsel).
Qed.

Lemma getGoogleProjectId_never_empty_witness :
  "only-proj" <> ""
  /\ fst (getGoogleProjectId (sample [""] (answered true) (answered "") "k") bare)
     = ("", guidance_no_project).
Proof.
  split.
  - apply (proj1 (getGoogleProjectId_never_empty
                    (sample ["only-proj"] (answered true) (answered "") "k") bare)
             "only-proj"
             (record bare [gke_GetGoogleProjects_call; only_project_notice "only-proj"])).
    reflexivity.
  - apply (proj1 (proj2 (proj2 (getGoogleProjectId_never_empty
                    (sample [""] (answered true) (answered "") "k") bare)))).
    reflexivity.
Defined.

(** ** The four steps of [Run], one by one *)

Ltac run_step :=
  unfold Run_login, Run_name, Run_project, Run_account, runCommandVerbose,
    gke_GetOrCreateServiceAccount, util_HomeDir, survey_AskOne_Input, log_Infof,
    call, set_Name, set_Project, read, bind, ret, flags_of;
  simpl.

Section Steps.

Variable env : Collaborators.

(** [Run] is its four steps in a row, stopping at the first error. *)
Lemma Run_steps (s0 : State) :
  let r1 := Run_login env s0 in
  let r2 := Run_name env (snd r1) in
  let r3 := Run_project env (snd r2) in
  let r4 := Run_account env (snd r3) in
  Run env s0
  = if is_set (fst r1) then r1
    else if is_set (fst r2) then r2
    else if is_set (fst r3) then r3
    else r4.
Proof.
  unfold Run, and_then, bind, ret; simpl.
  destruct (Run_login env s0) as [e1 s1]; simpl.
  destruct (is_set e1); [reflexivity |].
  destruct (Run_name env s1) as [e2 s2]; simpl.
  destruct (is_set e2); [reflexivity |].
  destruct (Run_project env s2) as [e3 s3]; simpl.
  destruct (is_set e3); reflexivity.
Qed.

(** *** Login *)

Lemma Run_login_eq (s : State) :
  Run_login env s
  = if SkipLogin (flags_of s)
    then (err_nil, s)
    else (runCommandVerbose_result env "gcloud" ["auth"; "login"; "--brief"],
          record s [login_call]).
Proof.
  run_step. now destruct (SkipLogin (Flags (opts s))).
Qed.

Lemma Run_login_frame (s : State) :
  opts (snd (Run_login env s)) = opts s /\
  keyboard (snd (Run_login env s)) = keyboard s.
Proof.
  rewrite Run_login_eq. now destruct (SkipLogin (flags_of s)).
Qed.

Lemma Run_login_trace (s : State) :
  trace (snd (Run_login env s))
  = (trace s ++ (if SkipLogin (flags_of s) then [] else [login_call]))%list.
Proof.
  rewrite Run_login_eq. destruct (SkipLogin (flags_of s)); simpl.
  - now rewrite app_nil_r.
  - reflexivity.
Qed.

(** *** Name *)

Lemma Run_name_given (s : State) :
  Name (flags_of s) <> "" -> Run_name env s = (err_nil, s).
Proof.
  intros H. apply string_eqb_empty in H. run_step.
  unfold flags_of in H. now rewrite H.
Qed.

Lemma Run_name_frame (s : State) :
  Project (flags_of (snd (Run_name env s))) = Project (flags_of s) /\
  SkipLogin (flags_of (snd (Run_name env s))) = SkipLogin (flags_of s).
Proof.
  run_step. destruct (Name (Flags (opts s)) =? ""); simpl; [| now split].
  destruct (Input_rounds env _ nameValidator (keyboard s)) as [[r rest] calls].
  now destruct r.
Qed.

Lemma Run_name_trace (s : State) :
  exists calls,
    trace (snd (Run_name env s)) = (trace s ++ calls)%list /\
    forallb is_Input_call calls = true /\
    (Name (flags_of s) <> "" -> calls = []).
Proof.
  run_step. destruct (Name (Flags (opts s)) =? "") eqn:En; simpl.
  - destruct (Input_rounds env _ nameValidator (keyboard s)) as [[r rest] calls] eqn:E.
    exists calls. repeat split.
    + now destruct r.
    + apply forallb_forall. intros c Hc.
      destruct (Input_rounds_calls _ _ _ _ _ _ _ c E Hc) as [-> | [invalid ->]];
        reflexivity.
    + intros Hne. apply string_eqb_empty in Hne. congruence.
  - exists []. repeat split. now rewrite app_nil_r.
Qed.

(** After a name step that ends without error the name is the flag's, when
    one was given, and otherwise a name the validator accepted. *)
Lemma Run_name_result (s : State) :
  fst (Run_name env s) = err_nil ->
  (Name (flags_of s) <> "" -> Name (flags_of (snd (Run_name env s))) = Name (flags_of s)) /\
  (Name (flags_of s) = "" -> 6 <= len (Name (flags_of (snd (Run_name env s))))).
Proof.
  run_step. destruct (Name (Flags (opts s)) =? "") eqn:En; simpl.
  - destruct (Input_rounds env _ nameValidator (keyboard s)) as [[r rest] calls] eqn:E.
    destruct r as [ans | e]; simpl; intros H; [| discriminate].
    split.
    + intros Hne. apply string_eqb_empty in Hne. congruence.
    + intros _. apply nameValidator_accepts_iff.
      exact (Input_rounds_answer_valid _ _ _ _ _ _ _ E).
  - intros _. split; [reflexivity |].
    intros Hn. rewrite Hn in En. discriminate.
Qed.

(** *** Project *)

Lemma Run_project_given (s : State) :
  Project (flags_of s) <> "" -> Run_project env s = (err_nil, s).
Proof.
  intros H. apply string_eqb_empty in H. run_step.
  unfold flags_of in H. now rewrite H.
Qed.

Lemma Run_project_resolved (s : State) :
  Project (flags_of s) = "" ->
  Run_project env s
  = let '((projectId, err), s') := getGoogleProjectId env s in
    if is_set err then (err, s') else (err_nil, snd (set_Project projectId s')).
Proof.
  intros H. run_step. unfold flags_of in H. rewrite H. simpl.
  destruct (getGoogleProjectId env s) as [[projectId err] s'].
  now destruct (is_set err).
Qed.


(** The resolver touches neither the flags nor the typed lines, and every
    call it makes is one of its own. *)
Lemma getGoogleProjectId_frame (s : State) :
  opts (snd (getGoogleProjectId env s)) = opts s /\
  keyboard (snd (getGoogleProjectId env s)) = keyboard s /\
  exists calls,
    trace (snd (getGoogleProjectId env s)) = (trace s ++ calls)%list /\
    forallb resolver_call calls = true.
Proof.
  run_cmd.
  destruct (GetGoogleProjects_result env) as [ps [e |]]; simpl.
  { repeat split. now exists [gke_GetGoogleProjects_call]. }
  destruct ps as [| a [| b ps']]; simpl.
  - destruct (Confirm_answer env) as [[|] | e]; simpl; repeat split;
      exists [gke_GetGoogleProjects_call; Confirm_prompt_shown];
      now rewrite <- app_assoc.
  - unfold index; simpl.
    destruct (a =? ""); simpl; repeat split;
      exists [gke_GetGoogleProjects_call; only_project_notice a];
      now rewrite <- app_assoc.
  - destruct (Select_answer env (a :: b :: ps')) as [choice | e]; simpl;
      [destruct (choice =? "") |]; simpl; repeat split;
      exists [gke_GetGoogleProjects_call; Select_prompt_shown (a :: b :: ps')];
      now rewrite <- app_assoc.
Qed.

Lemma Run_project_frame (s : State) :
  Name (flags_of (snd (Run_project env s))) = Name (flags_of s) /\
  SkipLogin (flags_of (snd (Run_project env s))) = SkipLogin (flags_of s) /\
  (Project (flags_of s) <> "" ->
   Project (flags_of (snd (Run_project env s))) = Project (flags_of s)).
Proof.
  destruct (String.eqb_spec (Project (flags_of s)) "") as [He | Hne].
  - rewrite (Run_project_resolved s He).
    destruct (getGoogleProjectId_frame s) as (Ho & _ & _).
    destruct (getGoogleProjectId env s) as [[projectId err] s']; simpl in *.
    unfold flags_of in *.
    destruct (is_set err); simpl; rewrite ?Ho; repeat split; try intros Hne; congruence.
  - rewrite (Run_project_given s Hne). now repeat split.
Qed.

Lemma Run_project_trace (s : State) :
  exists calls,
    trace (snd (Run_project env s)) = (trace s ++ calls)%list /\
    forallb resolver_call calls = true /\
    (Project (flags_of s) <> "" -> calls = []).
Proof.
  destruct (String.eqb_spec (Project (flags_of s)) "") as [He | Hne].
  - rewrite (Run_project_resolved s He).
    destruct (getGoogleProjectId_frame s) as (_ & _ & calls & Ht & Hc).
    destruct (getGoogleProjectId env s) as [[projectId err] s']; simpl in *.
    exists calls. destruct (is_set err); simpl; repeat split; auto; congruence.
  - rewrite (Run_project_given s Hne). exists []. simpl.
    rewrite app_nil_r. now repeat split.
Qed.

(** *** Account *)

Lemma Run_account_eq (s : State) :
  Run_account env s
  = let '(path, err) :=
      GetOrCreateServiceAccount_result env (Name (flags_of s)) (Project (flags_of s))
        (HomeDir_result env) in
    (err, record s (account_calls env s path err)).
Proof.
  run_step. unfold account_calls, flags_of.
  destruct (GetOrCreateServiceAccount_result env _ _ _) as [path [e |]]; simpl;
    rewrite !record_record; reflexivity.
Qed.

End Steps.

(** ** The whole run *)

Lemma is_set_false (err : error) : is_set err = false -> err = err_nil.
Proof.
  now destruct err.
Qed.

Lemma is_set_true (err : error) : is_set err = true -> err <> err_nil.
Proof.
  now destruct err.
Qed.

Section WholeRun.

Variable env : Collaborators.

(** The calls of a run, step by step: the login call unless skipped, then
    the rounds of the name prompt, then the resolver's calls, then the
    account step.  When the account step is reached, the name it passes is
    the flag's or a validated one, and the project is the flag's when one
    was given. *)
Lemma Run_shape (s0 : State) :
  exists c2 c3 c4,
    trace (snd (Run env s0))
    = (trace s0 ++ (if SkipLogin (flags_of s0) then [] else [login_call])
         ++ c2 ++ c3 ++ c4)%list /\
    forallb is_Input_call c2 = true /\
    forallb resolver_call c3 = true /\
    (Project (flags_of s0) <> "" -> c3 = []) /\
    ((c4 = [] /\ fst (Run env s0) <> err_nil) \/
     exists s3 path,
       c4 = account_calls env s3 path (fst (Run env s0)) /\
       GetOrCreateServiceAccount_result env (Name (flags_of s3)) (Project (flags_of s3))
         (HomeDir_result env) = (path, fst (Run env s0)) /\
       (Name (flags_of s0) <> "" -> Name (flags_of s3) = Name (flags_of s0)) /\
       (Name (flags_of s0) = "" -> 6 <= len (Name (flags_of s3))) /\
       (Project (flags_of s0) <> "" -> Project (flags_of s3) = Project (flags_of s0))).
Proof.
  rewrite Run_steps; cbv zeta.
  pose proof (Run_login_frame env s0) as [Ho1 _].
  pose proof (Run_login_trace env s0) as Ht1.
  destruct (Run_login env s0) as [e1 s1]; simpl in *.
  assert (Hf1 : flags_of s1 = flags_of s0) by (unfold flags_of; now rewrite Ho1).
  destruct (is_set e1) eqn:Ee1.
  { exists [], [], []. simpl. rewrite Ht1, app_nil_r.
    repeat split; auto. left. split; [reflexivity | now apply is_set_true]. }
  pose proof (Run_name_frame env s1) as [Hp2 Hk2].
  pose proof (Run_name_result env s1) as Hn2.
  destruct (Run_name_trace env s1) as (c2 & Ht2 & Hc2 & Hg2).
  destruct (Run_name env s1) as [e2 s2]; simpl in *.
  rewrite Hf1 in *.
  destruct (is_set e2) eqn:Ee2.
  { exists c2, [], []. simpl. rewrite Ht2, Ht1, app_nil_r, <- app_assoc.
    repeat split; auto. left. split; [reflexivity | now apply is_set_true]. }
  destruct (Hn2 (is_set_false _ Ee2)) as [Hgiven Hasked].
  pose proof (Run_project_frame env s2) as (Hn3 & _ & Hp3).
  destruct (Run_project_trace env s2) as (c3 & Ht3 & Hc3 & Hg3).
  destruct (Run_project env s2) as [e3 s3]; simpl in *.
  rewrite Hp2 in *.
  destruct (is_set e3) eqn:Ee3.
  { exists c2, c3, []. simpl. rewrite Ht3, Ht2, Ht1, app_nil_r, <- !app_assoc.
    repeat split; auto. left. split; [reflexivity | now apply is_set_true]. }
  rewrite Run_account_eq.
  destruct (GetOrCreateServiceAccount_result env (Name (flags_of s3))
              (Project (flags_of s3)) (HomeDir_result env)) as [path e4] eqn:E4.
  simpl.
  exists c2, c3, (account_calls env s3 path e4).
  rewrite Ht3, Ht2, Ht1, <- !app_assoc.
  repeat split; auto. right. exists s3, path.
  repeat split; auto; intros H; rewrite Hn3; auto.
Qed.

(** A project given as a flag is still there when the run ends. *)
Lemma Run_keeps_Project (s0 : State) :
  Project (flags_of s0) <> "" ->
  Project (flags_of (snd (Run env s0))) = Project (flags_of s0).
Proof.
  intros Hne. rewrite Run_steps; cbv zeta.
  pose proof (Run_login_frame env s0) as [Ho1 _].
  destruct (Run_login env s0) as [e1 s1]; simpl in *.
  assert (Hf1 : flags_of s1 = flags_of s0) by (unfold flags_of; now rewrite Ho1).
  destruct (is_set e1); simpl; [now rewrite Hf1 |].
  pose proof (Run_name_frame env s1) as [Hp2 _].
  destruct (Run_name env s1) as [e2 s2]; simpl in *.
  rewrite Hf1 in Hp2.
  destruct (is_set e2); simpl; [exact Hp2 |].
  pose proof (Run_project_frame env s2) as (_ & _ & Hp3).
  rewrite Hp2 in Hp3. specialize (Hp3 Hne).
  destruct (Run_project env s2) as [e3 s3]; simpl in *.
  destruct (is_set e3); simpl; [exact Hp3 |].
  rewrite Run_account_eq.
  destruct (GetOrCreateServiceAccount_result env _ _ _) as [path e4]; simpl.
  exact Hp3.
Qed.

End WholeRun.

(** ** Which calls can come from which step *)

Lemma Input_call_kind (c : Call) :
  is_Input_call c = true ->
  resolver_call c = false /\ is_login_call c = false /\
  forall name project homeDir, c <> gke_GetOrCreateServiceAccount_call name project homeDir.
Proof.
  destruct c; simpl; intros H; try discriminate; repeat split; discriminate.
Qed.

Lemma resolver_call_kind (c : Call) :
  resolver_call c = true ->
  is_login_call c = false /\
  forall name project homeDir, c <> gke_GetOrCreateServiceAccount_call name project homeDir.
Proof.
  destruct c; simpl; intros H; try discriminate; repeat split; discriminate.
Qed.

Lemma account_call_kind (env : Collaborators) (s : State) (path : string) (err : error)
    (c : Call) :
  In c (account_calls env s path err) ->
  resolver_call c = false /\ is_login_call c = false /\
  forall name project homeDir,
    c = gke_GetOrCreateServiceAccount_call name project homeDir ->
    name = Name (flags_of s) /\ project = Project (flags_of s) /\
    homeDir = HomeDir_result env.
Proof.
  unfold account_calls. simpl. intros [<- | [<- | H]].
  - repeat split; discriminate.
  - repeat split; congruence.
  - destruct (is_set err); simpl in H; [contradiction |].
    destruct H as [<- | []]. repeat split; discriminate.
Qed.

Lemma forallb_In {A : Type} (P : A -> bool) (l : list A) (x : A) :
  forallb P l = true -> In x l -> P x = true.
Proof.
  intros H. now apply forallb_forall.
Qed.

(** The account call of a run, if there is one, carries the name and the
    project described by [Run_shape]. *)
Lemma Run_account_call (env : Collaborators) (flags : CreateGkeServiceAccountFlags)
    (typed : list string) (name project homeDir : string) :
  In (gke_GetOrCreateServiceAccount_call name project homeDir)
     (trace (snd (Run env (start flags typed)))) ->
  homeDir = HomeDir_result env /\
  fst (Run env (start flags typed))
  = snd (GetOrCreateServiceAccount_result env name project homeDir) /\
  (Name flags <> "" -> name = Name flags) /\
  (Name flags = "" -> 6 <= len name) /\
  (Project flags <> "" -> project = Project flags).
Proof.
  destruct (Run_shape env (start flags typed)) as (c2 & c3 & c4 & Ht & Hc2 & Hc3 & _ & H4).
  change (flags_of (start flags typed)) with flags in *.
  rewrite Ht. simpl. intros Hin.
  assert (Hin' : In (gke_GetOrCreateServiceAccount_call name project homeDir)
                   (c2 ++ c3 ++ c4)).
  { destruct (SkipLogin flags); simpl in Hin; [exact Hin |].
    destruct Hin as [Hin | Hin]; [discriminate Hin | exact Hin]. }
  clear Hin. rename Hin' into Hin.
  apply in_app_or in Hin. destruct Hin as [Hin | Hin].
  { destruct (Input_call_kind _ (forallb_In _ _ _ Hc2 Hin)) as (_ & _ & Hno).
    exfalso. now apply (Hno name project homeDir). }
  apply in_app_or in Hin. destruct Hin as [Hin | Hin].
  { destruct (resolver_call_kind _ (forallb_In _ _ _ Hc3 Hin)) as (_ & Hno).
    exfalso. now apply (Hno name project homeDir). }
  destruct H4 as [[-> _] | (s3 & path & -> & Hres & Hgiven & Hasked & Hproj)].
  { contradiction. }
  destruct (account_call_kind _ _ _ _ _ Hin) as (_ & _ & Hargs).
  destruct (Hargs name project homeDir eq_refl) as (-> & -> & ->).
  rewrite Hres. simpl. unfold flags_of in *; simpl in *.
  repeat split; auto.
Qed.

(** ** Claims about the whole run *)

(** C2 (amended).  In every run that reaches the GetOrCreateServiceAccount
    call, the name passed to it is, when the --name flag was empty, a name
    of at least 6 bytes (it went through the prompt's validator), and
    otherwise the flag's value unchanged, whatever its length. *)
Theorem Run_account_name (env : Collaborators) (flags : CreateGkeServiceAccountFlags)
    (typed : list string) (name project homeDir : string) :
  In (gke_GetOrCreateServiceAccount_call name project homeDir)
     (trace (snd (Run env (start flags typed)))) ->
  (Name flags = "" -> 6 <= len name) /\ (Name flags <> "" -> name = Name flags).
Proof.
  intros Hin.
  destruct (Run_account_call env flags typed name project homeDir Hin)
    as (_ & _ & Hgiven & Hasked & _).
  now split.
Qed.

Lemma Run_account_name_witness :
  In (gke_GetOrCreateServiceAccount_call "svc-account" "only-proj" "/home/jx")
     (trace (snd (Run (sample ["only-proj"] (answered true) (answered "x") "k")
                    (start {| Name := ""; Project := ""; SkipLogin := true |}
                       ["abc"; "svc-account"]))))
  /\ 6 <= len "svc-account".
Proof.
  assert (Hin : In (gke_GetOrCreateServiceAccount_call "svc-account" "only-proj" "/home/jx")
                  (trace (snd (Run (sample ["only-proj"] (answered true) (answered "x") "k")
                                 (start {| Name := ""; Project := ""; SkipLogin := true |}
                                    ["abc"; "svc-account"])))))
    by (vm_compute; tauto).
  split; [exact Hin |].
  exact (proj1 (Run_account_name _ _ _ _ _ _ Hin) eq_refl).
Defined.

(** C2 as stated fails: with --name abc the account call is reached and is
    handed the 3-byte name. *)
Lemma Run_short_name_flag :
  ~ (forall (env : Collaborators) (flags : CreateGkeServiceAccountFlags)
       (typed : list string) (name project homeDir : string),
        In (gke_GetOrCreateServiceAccount_call name project homeDir)
           (trace (snd (Run env (start flags typed)))) ->
        6 <= len name).
Proof.
  intros H.
  specialize (H (sample ["only-proj"] (answered true) (answered "x") "k")
                {| Name := "abc"; Project := "proj-1"; SkipLogin := true |}
                [] "abc" "proj-1" "/home/jx").
  assert (Hlen : 6 <= len "abc") by (apply H; vm_compute; tauto).
  vm_compute in Hlen. lia.
Qed.

(** C3 (amended).  [Run] returns an error and nothing else.  When the run
    reaches GetOrCreateServiceAccount, what it returns is exactly the error
    of that call (nil on success); and when it returns nil, the path the
    call produced is reported, unchanged, in the "Created service account
    key" log message, which is the last thing the run does. *)
Theorem Run_reports_key_path (env : Collaborators) (flags : CreateGkeServiceAccountFlags)
    (typed : list string) :
  (forall name project homeDir,
      In (gke_GetOrCreateServiceAccount_call name project homeDir)
         (trace (snd (Run env (start flags typed)))) ->
      fst (Run env (start flags typed))
      = snd (GetOrCreateServiceAccount_result env name project homeDir)) /\
  (fst (Run env (start flags typed)) = err_nil ->
   exists calls name project path,
     GetOrCreateServiceAccount_result env name project (HomeDir_result env)
     = (path, err_nil) /\
     trace (snd (Run env (start flags typed)))
     = (calls ++ [gke_GetOrCreateServiceAccount_call name project (HomeDir_result env);
                  key_notice path])%list).
Proof.
  split.
  - intros name project homeDir Hin.
    now destruct (Run_account_call env flags typed name project homeDir Hin) as (_ & H & _).
  - intros Hok.
    destruct (Run_shape env (start flags typed))
      as (c2 & c3 & c4 & Ht & _ & _ & _ & H4).
    destruct H4 as [[_ Hbad] | (s3 & path & -> & Hres & _)]; [now contradiction Hbad |].
    rewrite Hok in *. unfold account_calls in Ht. simpl in Ht.
    exists ((if SkipLogin (flags_of (start flags typed)) then [] else [login_call])
              ++ c2 ++ c3 ++ [util_HomeDir_call])%list,
      (Name (flags_of s3)), (Project (flags_of s3)), path.
    split; [exact Hres |].
    rewrite Ht. now rewrite <- !app_assoc.
Qed.

Lemma Run_reports_key_path_witness :
  exists calls name project path,
    GetOrCreateServiceAccount_result
      (sample ["only-proj"] (answered true) (answered "x") "/home/jx/.jx/key.json")
      name project "/home/jx"
    = (path, err_nil) /\
    trace (snd (Run (sample ["only-proj"] (answered true) (answered "x")
                       "/home/jx/.jx/key.json")
                  (start {| Name := ""; Project := ""; SkipLogin := true |} ["svc-account"])))
    = (calls ++ [gke_GetOrCreateServiceAccount_call name project "/home/jx";
                 key_notice path])%list.
Proof.
  apply (proj2 (Run_reports_key_path
                  (sample ["only-proj"] (answered true) (answered "x")
                     "/home/jx/.jx/key.json")
                  {| Name := ""; Project := ""; SkipLogin := true |} ["svc-account"])).
  reflexivity.
Defined.

(** C3 as stated fails: two runs whose GetOrCreateServiceAccount calls
    succeed with different paths return the same value, nil, so no path can
    be read off what [Run] returns. *)
Lemma Run_returns_no_path :
  ~ (exists path_of : error -> string,
        forall (env : Collaborators) (flags : CreateGkeServiceAccountFlags)
          (typed : list string) (name project path : string),
          In (gke_GetOrCreateServiceAccount_call name project (HomeDir_result env))
             (trace (snd (Run env (start flags typed)))) ->
          GetOrCreateServiceAccount_result env name project (HomeDir_result env)
          = (path, err_nil) ->
          path_of (fst (Run env (start flags typed))) = path).
Proof.
  intros [path_of H].
  pose (flags := {| Name := "svc-account"; Project := "proj-1"; SkipLogin := true |}).
  assert (Ha : path_of err_nil = "/home/jx/.jx/a.key.json").
  { apply (H (sample [] (answered true) (answered "x") "/home/jx/.jx/a.key.json")
             flags [] "svc-account" "proj-1" "/home/jx/.jx/a.key.json").
    - vm_compute. tauto.
    - reflexivity. }
  assert (Hb : path_of err_nil = "/home/jx/.jx/b.key.json").
  { apply (H (sample [] (answered true) (answered "x") "/home/jx/.jx/b.key.json")
             flags [] "svc-account" "proj-1" "/home/jx/.jx/b.key.json").
    - vm_compute. tauto.
    - reflexivity. }
  rewrite Ha in Hb. discriminate Hb.
Qed.

(** C9.  When SkipLogin is false the first call of a run is the gcloud
    login, and if that login fails its error is what [Run] returns, with
    the flags and the typed lines untouched and no other call made.  When
    SkipLogin is true the run makes no login call at all. *)
Theorem Run_login_first (env : Collaborators) (flags : CreateGkeServiceAccountFlags)
    (typed : list string) :
  (SkipLogin flags = false ->
   exists rest, trace (snd (Run env (start flags typed))) = login_call :: rest) /\
  (SkipLogin flags = false ->
   forall e,
     runCommandVerbose_result env "gcloud" ["auth"; "login"; "--brief"] = Some e ->
     Run env (start flags typed) = (Some e, record (start flags typed) [login_call])) /\
  (SkipLogin flags = true ->
   forall c, In c (trace (snd (Run env (start flags typed)))) -> is_login_call c = false).
Proof.
  repeat split.
  - intros Hs.
    destruct (Run_shape env (start flags typed)) as (c2 & c3 & c4 & Ht & _).
    change (flags_of (start flags typed)) with flags in Ht.
    rewrite Hs in Ht. simpl in Ht. now exists (c2 ++ c3 ++ c4)%list.
  - intros Hs e He. rewrite Run_steps; cbv zeta.
    rewrite Run_login_eq.
    change (flags_of (start flags typed)) with flags.
    rewrite Hs, He. reflexivity.
  - intros Hs c.
    destruct (Run_shape env (start flags typed)) as (c2 & c3 & c4 & Ht & Hc2 & Hc3 & _ & H4).
    change (flags_of (start flags typed)) with flags in Ht.
    rewrite Hs in Ht. simpl in Ht. rewrite Ht. intros Hin.
    apply in_app_or in Hin. destruct Hin as [Hin | Hin].
    { now destruct (Input_call_kind _ (forallb_In _ _ _ Hc2 Hin)) as (_ & H & _). }
    apply in_app_or in Hin. destruct Hin as [Hin | Hin].
    { now destruct (resolver_call_kind _ (forallb_In _ _ _ Hc3 Hin)) as (H & _). }
    destruct H4 as [[-> _] | (s3 & path & -> & _)]; [contradiction |].
    now destruct (account_call_kind _ _ _ _ _ Hin) as (_ & H & _).
Qed.

Lemma Run_login_first_witness :
  Run sample_login_fails (start {| Name := ""; Project := ""; SkipLogin := false |} ["svc-account"])
  = (Some (opaqueError "exit status 1"),
     record (start {| Name := ""; Project := ""; SkipLogin := false |} ["svc-account"])
       [login_call])
  /\ is_login_call gke_GetGoogleProjects_call = false.
Proof.
  split.
  - apply (proj1 (proj2 (Run_login_first sample_login_fails
                           {| Name := ""; Project := ""; SkipLogin := false |}
                           ["svc-account"]))
             eq_refl (opaqueError "exit status 1")).
    reflexivity.
  - apply (proj2 (proj2 (Run_login_first
                           (sample ["only-proj"] (answered true) (answered "x") "k")
                           {| Name := ""; Project := ""; SkipLogin := true |}
                           ["svc-account"]))
             eq_refl gke_GetGoogleProjects_call).
    vm_compute. tauto.
Defined.

(** C10.  When the project flag is not empty, a run makes none of the
    resolver's calls (no project listing, no yes/no or selection prompt, no
    "only project" notice), ends with Flags.Project as it was, and hands
    that same project to GetOrCreateServiceAccount.  When the flag is empty
    and the run gets as far as a resolver call that succeeds, the run ends
    with the resolver's result in Flags.Project. *)
Theorem Run_project_flag (env : Collaborators) (flags : CreateGkeServiceAccountFlags)
    (typed : list string) :
  (Project flags <> "" ->
   (forall c, In c (trace (snd (Run env (start flags typed)))) -> resolver_call c = false) /\
   Project (flags_of (snd (Run env (start flags typed)))) = Project flags /\
   (forall name project homeDir,
       In (gke_GetOrCreateServiceAccount_call name project homeDir)
          (trace (snd (Run env (start flags typed)))) ->
       project = Project flags)) /\
  (Project flags = "" ->
   forall s1 s2 projectId s3,
     Run_login env (start flags typed) = (err_nil, s1) ->
     Run_name env s1 = (err_nil, s2) ->
     getGoogleProjectId env s2 = ((projectId, err_nil), s3) ->
     Project (flags_of (snd (Run env (start flags typed)))) = projectId).
Proof.
  split.
  - intros Hne. repeat split.
    + intros c.
      destruct (Run_shape env (start flags typed))
        as (c2 & c3 & c4 & Ht & Hc2 & _ & Hc3 & H4).
      change (flags_of (start flags typed)) with flags in *.
      rewrite (Hc3 Hne) in Ht. rewrite Ht. simpl. intros Hin.
      apply in_app_or in Hin. destruct Hin as [Hin | Hin].
      { destruct (SkipLogin flags); simpl in Hin; [contradiction |].
        destruct Hin as [<- | []]. reflexivity. }
      apply in_app_or in Hin. destruct Hin as [Hin | Hin].
      { now destruct (Input_call_kind _ (forallb_In _ _ _ Hc2 Hin)) as (H & _). }
      destruct H4 as [[-> _] | (s3 & path & -> & _)]; [contradiction |].
      now destruct (account_call_kind _ _ _ _ _ Hin) as (H & _).
    + exact (Run_keeps_Project env (start flags typed) Hne).
    + intros name project homeDir Hin.
      destruct (Run_account_call env flags typed name project homeDir Hin)
        as (_ & _ & _ & _ & H).
      now apply H.
  - intros He s1 s2 projectId s3 H1 H2 H3.
    rewrite Run_steps; cbv zeta.
    pose proof (Run_login_frame env (start flags typed)) as [Ho1 _].
    pose proof (Run_name_frame env s1) as [Hp2 _].
    rewrite H1 in *; simpl in *. rewrite H2 in *; simpl in *.
    assert (Hp : Project (flags_of s2) = "").
    { rewrite Hp2. unfold flags_of. rewrite Ho1. exact He. }
    rewrite (Run_project_resolved env s2 Hp), H3. simpl.
    rewrite Run_account_eq.
    destruct (GetOrCreateServiceAccount_result env _ _ _) as [path e4].
    reflexivity.
Qed.

Lemma Run_project_flag_witness :
  Project (flags_of (snd (Run (sample ["a"; "b"] (answered true) (answered "b") "k")
                            (start {| Name := "svc-account"; Project := "proj-1";
                                      SkipLogin := true |} []))))
  = "proj-1"
  /\ Project (flags_of (snd (Run (sample ["a"; "b"] (answered true) (answered "b") "k")
                               (start {| Name := "svc-account"; Project := "";
                                         SkipLogin := true |} []))))
     = "b".
Proof.
  split.
  - apply (proj1 (proj2 (proj1 (Run_project_flag
                                  (sample ["a"; "b"] (answered true) (answered "b") "k")
                                  {| Name := "svc-account"; Project := "proj-1";
                                     SkipLogin := true |} [])
                           ltac:(discriminate)))).
  - apply (proj2 (Run_project_flag
                    (sample ["a"; "b"] (answered true) (answered "b") "k")
                    {| Name := "svc-account"; Project := ""; SkipLogin := true |} [])
             eq_refl
             (start {| Name := "svc-account"; Project := ""; SkipLogin := true |} [])
             (start {| Name := "svc-account"; Project := ""; SkipLogin := true |} [])
             "b"
             (record (start {| Name := "svc-account"; Project := ""; SkipLogin := true |} [])
                [gke_GetGoogleProjects_call; Select_prompt_shown ["a"; "b"]]));
      reflexivity.
Defined.

(** ** An end-to-end run

    No name and no project given, login skipped, one existing project, and
    a user who first types a name that is too short. *)
Example Run_end_to_end :
  Run (sample ["only-proj"] (answered true) (answered "x") "/home/jx/.jx/key.json")
      (start {| Name := ""; Project := ""; SkipLogin := true |} ["svc"; "svc-account"])
  = (err_nil,
     {| opts := {| Flags := {| Name := "svc-account"; Project := "only-proj";
                               SkipLogin := true |} |};
        keyboard := [];
        trace := [name_prompt_shown;
                  survey_Input_error
                    (errorString "Service Account name must be longer than 5 characters");
                  name_prompt_shown;
                  gke_GetGoogleProjects_call;
                  only_project_notice "only-proj";
                  util_HomeDir_call;
                  gke_GetOrCreateServiceAccount_call "svc-account" "only-proj" "/home/jx";
                  key_notice "/home/jx/.jx/key.json"] |}).
Proof.
  reflexivity.
Qed.

(** * Further properties of the command *)

(** ** The project resolver: failures and frame *)

(** X1.  When listing the projects fails, the resolver returns the empty
    string with that very error, whatever list came with it; the listing is
    the only call it has made, so no prompt is shown and no notice logged. *)
Theorem getGoogleProjectId_listing_fails (env : Collaborators) (s : State)
    (ps : list string) (e : error_value) :
  GetGoogleProjects_result env = (ps, Some e) ->
  getGoogleProjectId env s = (("", Some e), record s [gke_GetGoogleProjects_call]).
Proof.
  intros Hp. run_cmd. now rewrite Hp.
Qed.

Lemma getGoogleProjectId_listing_fails_witness :
  getGoogleProjectId sample_listing_fails bare
  = (("", Some (opaqueError "exit status 1")), record bare [gke_GetGoogleProjects_call]).
Proof.
  apply (getGoogleProjectId_listing_fails sample_listing_fails bare []
           (opaqueError "exit status 1")).
  reflexivity.
Defined.

(** X2.  An aborted prompt ends the resolver with the prompt's error and the
    empty string: the yes/no prompt when no project exists, the selection
    prompt when several do. *)
Theorem getGoogleProjectId_prompt_aborted (env : Collaborators) (s : State)
    (ps : list string) (e : error_value) :
  GetGoogleProjects_result env = (ps, err_nil) ->
  (ps = [] -> Confirm_answer env = aborted e ->
   getGoogleProjectId env s
   = (("", Some e), record s [gke_GetGoogleProjects_call; Confirm_prompt_shown])) /\
  (1 < slice_len ps -> Select_answer env ps = aborted e ->
   getGoogleProjectId env s
   = (("", Some e), record s [gke_GetGoogleProjects_call; Select_prompt_shown ps])).
Proof.
  intros Hp. split.
  - intros -> Hc. run_cmd. rewrite Hp. simpl. rewrite Hc. simpl.
    now rewrite record_record.
  - intros Hlen Hsel. run_cmd. rewrite Hp. simpl.
    destruct ps as [| a [| b ps']]; unfold slice_len in Hlen; simpl in Hlen; try lia.
    simpl. rewrite Hsel. simpl. now rewrite record_record.
Qed.

Lemma getGoogleProjectId_prompt_aborted_witness :
  getGoogleProjectId
    (sample [] (aborted (errorString "interrupt")) (answered "x") "k") bare
  = (("", Some (errorString "interrupt")),
     record bare [gke_GetGoogleProjects_call; Confirm_prompt_shown])
  /\ getGoogleProjectId
       (sample ["a"; "b"] (answered true) (aborted (errorString "interrupt")) "k") bare
     = (("", Some (errorString "interrupt")),
        record bare [gke_GetGoogleProjects_call; Select_prompt_shown ["a"; "b"]]).
Proof.
  split.
  - apply (proj1 (getGoogleProjectId_prompt_aborted
                    (sample [] (aborted (errorString "interrupt")) (answered "x") "k")
                    bare [] (errorString "interrupt") eq_refl));
      reflexivity.
  - apply (proj2 (getGoogleProjectId_prompt_aborted
                    (sample ["a"; "b"] (answered true) (aborted (errorString "interrupt")) "k")
                    bare ["a"; "b"] (errorString "interrupt") eq_refl)).
    + unfold slice_len; simpl; lia.
    + reflexivity.
Defined.

(** X3.  With an empty project listing the resolver never succeeds: whether
    the yes/no prompt is answered yes, answered no or aborted, it returns
    the empty string with a non-nil error, after the listing and that one
    prompt. *)
Theorem getGoogleProjectId_no_projects_always_fails (env : Collaborators) (s : State) :
  GetGoogleProjects_result env = ([], err_nil) ->
  exists e,
    getGoogleProjectId env s
    = (("", Some e), record s [gke_GetGoogleProjects_call; Confirm_prompt_shown]).
Proof.
  intros Hp. run_cmd. rewrite Hp. simpl.
  destruct (Confirm_answer env) as [[|] | e]; simpl; rewrite record_record; simpl;
    eexists; reflexivity.
Qed.

Lemma getGoogleProjectId_no_projects_always_fails_witness :
  exists e,
    getGoogleProjectId
      (sample [] (aborted (errorString "interrupt")) (answered "x") "k") bare
    = (("", Some e), record bare [gke_GetGoogleProjects_call; Confirm_prompt_shown]).
Proof.
  apply (getGoogleProjectId_no_projects_always_fails
           (sample [] (aborted (errorString "interrupt")) (answered "x") "k") bare).
  reflexivity.
Defined.

(** X4.  Whatever the collaborators answer, the resolver leaves the flags
    as they are and makes the project listing followed by at most one call,
    which the listing alone decides: none when the listing failed, the
    yes/no prompt when it is empty, the notice naming the project when it
    holds one, the selection prompt over the whole listing otherwise.  So
    it never logs in and never calls GetOrCreateServiceAccount. *)
Theorem getGoogleProjectId_footprint (env : Collaborators) (s : State) :
  opts (snd (getGoogleProjectId env s)) = opts s /\
  trace (snd (getGoogleProjectId env s))
  = (trace s
     ++ gke_GetGoogleProjects_call
        :: match GetGoogleProjects_result env with
           | (_, Some _) => []
           | ([], None) => [Confirm_prompt_shown]
           | ([p], None) => [only_project_notice p]
           | (ps, None) => [Select_prompt_shown ps]
           end)%list.
Proof.
  run_cmd.
  destruct (GetGoogleProjects_result env) as [ps [e |]]; simpl.
  { destruct ps as [| a [| b ps']]; now split. }
  destruct ps as [| a [| b ps']]; simpl.
  - destruct (Confirm_answer env) as [[|] | e]; simpl; split;
      try reflexivity; now rewrite <- app_assoc.
  - unfold index; simpl.
    destruct (a =? ""); simpl; split; try reflexivity; now rewrite <- app_assoc.
  - destruct (Select_answer env (a :: b :: ps')) as [choice | e]; simpl;
      [destruct (choice =? "") |]; simpl; split;
      try reflexivity; now rewrite <- app_assoc.
Qed.

(** ** The name prompt, line by line *)

Lemma record_nil (s : State) : record s [] = s.
Proof.
  destruct s. unfold record; simpl. now rewrite app_nil_r.
Qed.

Lemma Run_login_passes (env : Collaborators) (s : State) :
  login_passes env (flags_of s) ->
  Run_login env s = (err_nil, record s (login_calls (flags_of s))).
Proof.
  intros Hl. rewrite Run_login_eq. unfold login_calls.
  destruct (SkipLogin (flags_of s)) eqn:Es.
  - now rewrite record_nil.
  - destruct Hl as [Hl | Hl]; [congruence | now rewrite Hl].
Qed.

Section NamePrompt.

Variable env : Collaborators.

Lemma Input_rounds_skips_short (short : list string) (good : string) (rest : list string) :
  Forall (fun line => len line < 6) short ->
  6 <= len good ->
  Input_rounds env "Name for the service account" nameValidator (short ++ good :: rest)
  = (answered good, rest, (rejected_rounds short ++ [name_prompt_shown])%list).
Proof.
  intros Hshort Hgood.
  induction Hshort as [| line short Hline _ IH]; cbn -[nameValidator].
  - now rewrite (proj2 (nameValidator_accepts_iff good) Hgood).
  - rewrite nameValidator_string. apply Nat.ltb_lt in Hline. rewrite Hline.
    cbn -[nameValidator]. now rewrite IH.
Qed.

Lemma Input_rounds_all_short (typed : list string) :
  Forall (fun line => len line < 6) typed ->
  Input_rounds env "Name for the service account" nameValidator typed
  = (aborted (Input_abort env), [], (rejected_rounds typed ++ [name_prompt_shown])%list).
Proof.
  intros Hshort.
  induction Hshort as [| line short Hline _ IH]; cbn -[nameValidator].
  - reflexivity.
  - rewrite nameValidator_string. apply Nat.ltb_lt in Hline. rewrite Hline.
    cbn -[nameValidator]. now rewrite IH.
Qed.

End NamePrompt.

Lemma Run_name_takes_first_valid (env : Collaborators) (s : State)
    (short : list string) (good : string) (rest : list string) :
  Name (flags_of s) = "" ->
  keyboard s = (short ++ good :: rest)%list ->
  Forall (fun line => len line < 6) short ->
  6 <= len good ->
  Run_name env s
  = (err_nil,
     {| opts := {| Flags := {| Name := good; Project := Project (flags_of s);
                               SkipLogin := SkipLogin (flags_of s) |} |};
        keyboard := rest;
        trace := trace s ++ rejected_rounds short ++ [name_prompt_shown] |}).
Proof.
  intros Hn Hk Hshort Hgood.
  unfold Run_name, survey_AskOne_Input, set_Name, read, bind, ret, flags_of in *.
  cbn -[nameValidator Input_rounds]. rewrite Hn.
  cbn -[nameValidator Input_rounds]. rewrite Hk.
  now rewrite (Input_rounds_skips_short env short good rest Hshort Hgood).
Qed.

(** X5.  When no name flag is given, the name step takes the first typed
    line of at least 6 bytes as Flags.Name: each shorter line before it
    costs one round (prompt, then the "longer than 5 characters" error),
    the lines after it stay unread, and the step ends without error. *)
Theorem Run_name_first_valid_line (env : Collaborators) (s : State)
    (short : list string) (good : string) (rest : list string) :
  Name (flags_of s) = "" ->
  keyboard s = (short ++ good :: rest)%list ->
  Forall (fun line => len line < 6) short ->
  6 <= len good ->
  Run_name env s
  = (err_nil,
     {| opts := {| Flags := {| Name := good; Project := Project (flags_of s);
                               SkipLogin := SkipLogin (flags_of s) |} |};
        keyboard := rest;
        trace := trace s ++ rejected_rounds short ++ [name_prompt_shown] |}).
Proof.
  exact (Run_name_takes_first_valid env s short good rest).
Qed.

Lemma Run_name_first_valid_line_witness :
  Run_name (sample ["only-proj"] (answered true) (answered "x") "k")
    (start {| Name := ""; Project := ""; SkipLogin := true |}
       ["abc"; ""; "svc-account"; "other-name"])
  = (err_nil,
     {| opts := {| Flags := {| Name := "svc-account"; Project := ""; SkipLogin := true |} |};
        keyboard := ["other-name"];
        trace := [] ++ rejected_rounds ["abc"; ""] ++ [name_prompt_shown] |}).
Proof.
  apply (Run_name_first_valid_line
           (sample ["only-proj"] (answered true) (answered "x") "k")
           (start {| Name := ""; Project := ""; SkipLogin := true |}
              ["abc"; ""; "svc-account"; "other-name"])
           ["abc"; ""] "svc-account" ["other-name"]).
  - reflexivity.
  - reflexivity.
  - repeat constructor.
  - vm_compute. lia.
Defined.

(** X6.  When no name flag is given and every typed line is shorter than 6
    bytes, the prompt ends in an abort: [Run] returns the abort error with
    Flags unchanged, after one rejected round per line and a last prompt.
    No project is listed and no account is created. *)
Theorem Run_name_prompt_exhausted (env : Collaborators)
    (flags : CreateGkeServiceAccountFlags) (typed : list string) :
  login_passes env flags ->
  Name flags = "" ->
  Forall (fun line => len line < 6) typed ->
  Run env (start flags typed)
  = (Some (Input_abort env),
     {| opts := {| Flags := flags |};
        keyboard := [];
        trace := login_calls flags ++ rejected_rounds typed ++ [name_prompt_shown] |}).
Proof.
  intros Hl Hn Hshort.
  rewrite Run_steps; cbv zeta.
  rewrite (Run_login_passes env (start flags typed) Hl). simpl.
  unfold Run_name, survey_AskOne_Input, set_Name, read, bind, ret, flags_of.
  cbn -[nameValidator Input_rounds]. rewrite Hn.
  cbn -[nameValidator Input_rounds].
  rewrite (Input_rounds_all_short env typed Hshort).
  destruct flags as [n p k]; simpl in *. now subst n.
Qed.

Lemma Run_name_prompt_exhausted_witness :
  Run (sample ["only-proj"] (answered true) (answered "x") "k")
    (start {| Name := ""; Project := "proj-1"; SkipLogin := false |} ["abc"; "svc"])
  = (Some (errorString "interrupt"),
     {| opts := {| Flags := {| Name := ""; Project := "proj-1"; SkipLogin := false |} |};
        keyboard := [];
        trace := login_calls {| Name := ""; Project := "proj-1"; SkipLogin := false |}
                 ++ rejected_rounds ["abc"; "svc"] ++ [name_prompt_shown] |}).
Proof.
  apply (Run_name_prompt_exhausted
           (sample ["only-proj"] (answered true) (answered "x") "k")
           {| Name := ""; Project := "proj-1"; SkipLogin := false |} ["abc"; "svc"]).
  - right. reflexivity.
  - reflexivity.
  - repeat constructor.
Defined.

(** X7.  With both --name and --project given and the login step passing,
    a run is not interactive: it shows no prompt, lists no project, reads
    no typed line and leaves the flags as they are.  After the login call
    (unless skipped) it asks for the home directory, calls
    GetOrCreateServiceAccount with exactly the two flag values, returns
    that call's error, and logs the key path only when there is none. *)
Theorem Run_with_both_flags (env : Collaborators)
    (flags : CreateGkeServiceAccountFlags) (typed : list string) :
  login_passes env flags ->
  Name flags <> "" ->
  Project flags <> "" ->
  Run env (start flags typed)
  = (snd (GetOrCreateServiceAccount_result env (Name flags) (Project flags)
            (HomeDir_result env)),
     {| opts := {| Flags := flags |};
        keyboard := typed;
        trace := login_calls flags
                 ++ [util_HomeDir_call;
                     gke_GetOrCreateServiceAccount_call (Name flags) (Project flags)
                       (HomeDir_result env)]
                 ++ (if is_set (snd (GetOrCreateServiceAccount_result env (Name flags)
                                       (Project flags) (HomeDir_result env)))
                     then []
                     else [key_notice (fst (GetOrCreateServiceAccount_result env
                                              (Name flags) (Project flags)
                                              (HomeDir_result env)))]) |}).
Proof.
  intros Hl Hn Hp.
  rewrite Run_steps; cbv zeta.
  rewrite (Run_login_passes env (start flags typed) Hl).
  change (flags_of (start flags typed)) with flags.
  set (s1 := record (start flags typed) (login_calls flags)).
  cbn [fst snd is_set err_nil].
  rewrite (Run_name_given env s1 Hn). cbn [fst snd is_set err_nil].
  rewrite (Run_project_given env s1 Hp). cbn [fst snd is_set err_nil].
  rewrite Run_account_eq. unfold account_calls.
  change (flags_of s1) with flags.
  destruct (GetOrCreateServiceAccount_result env (Name flags) (Project flags)
              (HomeDir_result env)) as [path err].
  reflexivity.
Qed.

Lemma Run_with_both_flags_witness :
  Run sample_account_fails
    (start {| Name := "svc-account"; Project := "proj-1"; SkipLogin := true |} ["typed"])
  = (Some (opaqueError "exit status 1"),
     {| opts := {| Flags := {| Name := "svc-account"; Project := "proj-1";
                               SkipLogin := true |} |};
        keyboard := ["typed"];
        trace := [util_HomeDir_call;
                  gke_GetOrCreateServiceAccount_call "svc-account" "proj-1" "/home/jx"] |}).
Proof.
  apply (Run_with_both_flags sample_account_fails
           {| Name := "svc-account"; Project := "proj-1"; SkipLogin := true |} ["typed"]).
  - left. reflexivity.
  - discriminate.
  - discriminate.
Defined.

(** ** What reaches the account step *)

Lemma forallb_weaken {A : Type} (P Q : A -> bool) (l : list A) :
  (forall x, P x = true -> Q x = true) ->
  forallb P l = true -> forallb Q l = true.
Proof.
  intros HPQ H. apply forallb_forall. intros x Hx.
  apply HPQ. exact (forallb_In P l x H Hx).
Qed.

Lemma login_calls_before_account (flags : CreateGkeServiceAccountFlags) :
  forallb before_account (login_calls flags) = true.
Proof.
  unfold login_calls. now destruct (SkipLogin flags).
Qed.

Lemma Input_call_before_account (c : Call) :
  is_Input_call c = true -> before_account c = true.
Proof.
  unfold before_account. intros ->. now rewrite orb_true_r.
Qed.

Lemma resolver_call_before_account (c : Call) :
  resolver_call c = true -> before_account c = true.
Proof.
  unfold before_account. intros ->. now rewrite orb_true_r.
Qed.

Lemma before_account_kind (c : Call) :
  before_account c = true -> is_account_call c = false /\ is_key_notice c = false.
Proof.
  unfold before_account.
  destruct c; simpl; try (intros H; discriminate H); try (now split).
  intros H. split; [reflexivity |].
  destruct (String.eqb_spec format
              ("Using the only Google Cloud Project %s to create the cluster" ++ LF))
    as [-> | Hne]; [reflexivity |].
  apply String.eqb_neq in Hne. simpl in Hne. rewrite Hne in H. discriminate H.
Qed.

Section ToAccount.

Variable env : Collaborators.

Lemma Run_name_nonempty (s : State) :
  fst (Run_name env s) = err_nil -> Name (flags_of (snd (Run_name env s))) <> "".
Proof.
  intros Hok. destruct (Run_name_result env s Hok) as [Hgiven Hasked].
  destruct (String.eqb_spec (Name (flags_of s)) "") as [He | Hne].
  - specialize (Hasked He). intros Hempty. rewrite Hempty in Hasked.
    unfold len in Hasked; simpl in Hasked. lia.
  - now rewrite (Hgiven Hne).
Qed.

Lemma Run_project_nonempty (s : State) :
  fst (Run_project env s) = err_nil -> Project (flags_of (snd (Run_project env s))) <> "".
Proof.
  destruct (String.eqb_spec (Project (flags_of s)) "") as [He | Hne].
  - rewrite (Run_project_resolved env s He).
    pose proof (getGoogleProjectId_outcome env s) as Hout.
    destruct (getGoogleProjectId env s) as [[projectId err] s'].
    destruct (Hout projectId err s' eq_refl) as [[-> Hp] | [Herr ->]]; simpl.
    + intros _. exact Hp.
    + destruct err as [e |]; simpl; [discriminate | now contradiction Herr].
  - rewrite (Run_project_given env s Hne). intros _. exact Hne.
Qed.

Lemma Run_project_keyboard (s : State) :
  keyboard (snd (Run_project env s)) = keyboard s.
Proof.
  destruct (String.eqb_spec (Project (flags_of s)) "") as [He | Hne].
  - rewrite (Run_project_resolved env s He).
    destruct (getGoogleProjectId_frame env s) as (_ & Hk & _).
    destruct (getGoogleProjectId env s) as [[projectId err] s']; simpl in *.
    now destruct (is_set err).
  - now rewrite (Run_project_given env s Hne).
Qed.

Lemma Run_account_frame (s : State) :
  opts (snd (Run_account env s)) = opts s /\
  keyboard (snd (Run_account env s)) = keyboard s.
Proof.
  rewrite Run_account_eq.
  now destruct (GetOrCreateServiceAccount_result env _ _ _) as [path err].
Qed.

(** A run either stops with an error before its account step, or enters
    the account step with a non-empty name and a non-empty project; up to
    there it has made only login, name-prompt and resolver calls. *)
Lemma Run_to_account (s0 : State) :
  exists c,
    forallb before_account c = true /\
    ((fst (Run env s0) <> err_nil /\ trace (snd (Run env s0)) = (trace s0 ++ c)%list /\
      SkipLogin (flags_of (snd (Run env s0))) = SkipLogin (flags_of s0)) \/
     exists s3,
       Run env s0 = Run_account env s3 /\
       trace s3 = (trace s0 ++ c)%list /\
       Name (flags_of s3) <> "" /\
       Project (flags_of s3) <> "" /\
       SkipLogin (flags_of s3) = SkipLogin (flags_of s0)).
Proof.
  rewrite Run_steps; cbv zeta.
  pose proof (Run_login_frame env s0) as [Ho1 _].
  pose proof (Run_login_trace env s0) as Ht1.
  fold (login_calls (flags_of s0)) in Ht1.
  pose proof (login_calls_before_account (flags_of s0)) as Hb1.
  destruct (Run_login env s0) as [e1 s1]; simpl in *.
  assert (Hf1 : flags_of s1 = flags_of s0) by (unfold flags_of; now rewrite Ho1).
  destruct (is_set e1) eqn:Ee1.
  { exists (login_calls (flags_of s0)). split; [exact Hb1 |]. left.
    simpl. rewrite Hf1. repeat split; auto. now apply is_set_true. }
  pose proof (Run_name_frame env s1) as [_ Hk2].
  pose proof (Run_name_nonempty s1) as Hn2.
  destruct (Run_name_trace env s1) as (c2 & Ht2 & Hc2 & _).
  apply (forallb_weaken _ _ _ Input_call_before_account) in Hc2.
  destruct (Run_name env s1) as [e2 s2]; simpl in *.
  destruct (is_set e2) eqn:Ee2.
  { exists (login_calls (flags_of s0) ++ c2)%list. split.
    - rewrite forallb_app, Hb1, Hc2. reflexivity.
    - left. simpl. rewrite Ht2, Ht1, <- app_assoc, Hk2, Hf1.
      repeat split; auto. now apply is_set_true. }
  specialize (Hn2 (is_set_false _ Ee2)).
  pose proof (Run_project_frame env s2) as (Hn3 & Hk3 & _).
  pose proof (Run_project_nonempty s2) as Hp3.
  destruct (Run_project_trace env s2) as (c3 & Ht3 & Hc3 & _).
  apply (forallb_weaken _ _ _ resolver_call_before_account) in Hc3.
  destruct (Run_project env s2) as [e3 s3]; simpl in *.
  exists (login_calls (flags_of s0) ++ c2 ++ c3)%list. split.
  { rewrite !forallb_app, Hb1, Hc2, Hc3. reflexivity. }
  assert (Ht : trace s3 = (trace s0 ++ login_calls (flags_of s0) ++ c2 ++ c3)%list)
    by (rewrite Ht3, Ht2, Ht1, <- !app_assoc; reflexivity).
  assert (Hk : SkipLogin (flags_of s3) = SkipLogin (flags_of s0))
    by (rewrite Hk3, Hk2, Hf1; reflexivity).
  destruct (is_set e3) eqn:Ee3.
  - left. simpl. repeat split; auto. now apply is_set_true.
  - right. exists s3. repeat split; auto.
    + rewrite Hn3. exact Hn2.
    + exact (Hp3 (is_set_false _ Ee3)).
Qed.

End ToAccount.

Lemma account_call_not_Input (env : Collaborators) (s : State) (path : string)
    (err : error) (c : Call) :
  In c (account_calls env s path err) -> is_Input_call c = false.
Proof.
  unfold account_calls. simpl. intros [<- | [<- | H]]; try reflexivity.
  destruct (is_set err); simpl in H; [contradiction |].
  destruct H as [<- | []]. reflexivity.
Qed.

Lemma resolver_call_not_Input (c : Call) :
  resolver_call c = true -> is_Input_call c = false.
Proof.
  destruct c; simpl; intros H; try discriminate; reflexivity.
Qed.

(** ** The whole run: what is passed on, what is reported, what is kept *)

(** X8.  GetOrCreateServiceAccount is never called with an empty name or an
    empty project, and always with the home directory util.HomeDir gave:
    whatever the flags, the typed lines and the collaborators' answers. *)
Theorem Run_account_args_nonempty (env : Collaborators)
    (flags : CreateGkeServiceAccountFlags) (typed : list string)
    (name project homeDir : string) :
  In (gke_GetOrCreateServiceAccount_call name project homeDir)
     (trace (snd (Run env (start flags typed)))) ->
  name <> "" /\ project <> "" /\ homeDir = HomeDir_result env.
Proof.
  destruct (Run_to_account env (start flags typed))
    as (c & Hc & [(_ & Ht & _) | (s3 & HR & Ht & Hn & Hp & _)]).
  - rewrite Ht. simpl. intros Hin.
    pose proof (forallb_In _ _ _ Hc Hin) as Hb. discriminate Hb.
  - rewrite HR, Run_account_eq.
    destruct (GetOrCreateServiceAccount_result env _ _ _) as [path err]. simpl.
    rewrite Ht. simpl. intros Hin.
    apply in_app_or in Hin. destruct Hin as [Hin | Hin].
    { pose proof (forallb_In _ _ _ Hc Hin) as Hb. discriminate Hb. }
    destruct (account_call_kind _ _ _ _ _ Hin) as (_ & _ & Hargs).
    destruct (Hargs name project homeDir eq_refl) as (-> & -> & ->).
    now repeat split.
Qed.

Lemma Run_account_args_nonempty_witness :
  In (gke_GetOrCreateServiceAccount_call "svc-account" "b" "/home/jx")
     (trace (snd (Run (sample ["a"; "b"] (answered true) (answered "b") "k")
                    (start {| Name := ""; Project := ""; SkipLogin := false |}
                       ["short"; "svc-account"]))))
  /\ "svc-account" <> "" /\ "b" <> "" /\ "/home/jx" = "/home/jx".
Proof.
  assert (Hin : In (gke_GetOrCreateServiceAccount_call "svc-account" "b" "/home/jx")
                  (trace (snd (Run (sample ["a"; "b"] (answered true) (answered "b") "k")
                                 (start {| Name := ""; Project := ""; SkipLogin := false |}
                                    ["short"; "svc-account"])))))
    by (vm_compute; tauto).
  split; [exact Hin |].
  exact (Run_account_args_nonempty _ _ _ _ _ _ Hin).
Defined.

(** X9.  The "Created service account key" message is logged exactly when
    [Run] returns nil: a run that returns an error never logs it, and a run
    that returns nil always has. *)
Theorem Run_key_notice_iff_success (env : Collaborators)
    (flags : CreateGkeServiceAccountFlags) (typed : list string) :
  fst (Run env (start flags typed)) = err_nil <->
  exists c, In c (trace (snd (Run env (start flags typed)))) /\ is_key_notice c = true.
Proof.
  destruct (Run_to_account env (start flags typed))
    as (c0 & Hc & [(Hbad & Ht & _) | (s3 & HR & Ht & _)]).
  - split.
    + intros Hok. now contradiction Hbad.
    + intros (c & Hin & Hk). rewrite Ht in Hin. simpl in Hin.
      destruct (before_account_kind c (forallb_In _ _ _ Hc Hin)) as [_ Hno].
      congruence.
  - rewrite HR, Run_account_eq.
    destruct (GetOrCreateServiceAccount_result env _ _ _) as [path err]. simpl.
    rewrite Ht. simpl. split.
    + intros ->. exists (key_notice path). split; [| reflexivity].
      apply in_or_app. right. unfold account_calls. simpl. tauto.
    + intros (c & Hin & Hk).
      apply in_app_or in Hin. destruct Hin as [Hin | Hin].
      { destruct (before_account_kind c (forallb_In _ _ _ Hc Hin)) as [_ Hno].
        congruence. }
      unfold account_calls in Hin. simpl in Hin.
      destruct Hin as [<- | [<- | Hin]]; try discriminate Hk.
      destruct err as [e |]; simpl in Hin; [contradiction | reflexivity].
Qed.

(** X10.  When [Run] returns nil, the flags it leaves behind are filled in:
    Flags.Name and Flags.Project are both non-empty, they are the very
    values GetOrCreateServiceAccount was called with, and Flags.SkipLogin
    is as given. *)
Theorem Run_success_fills_flags (env : Collaborators)
    (flags : CreateGkeServiceAccountFlags) (typed : list string) :
  fst (Run env (start flags typed)) = err_nil ->
  Name (flags_of (snd (Run env (start flags typed)))) <> "" /\
  Project (flags_of (snd (Run env (start flags typed)))) <> "" /\
  SkipLogin (flags_of (snd (Run env (start flags typed)))) = SkipLogin flags /\
  In (gke_GetOrCreateServiceAccount_call
        (Name (flags_of (snd (Run env (start flags typed)))))
        (Project (flags_of (snd (Run env (start flags typed)))))
        (HomeDir_result env))
     (trace (snd (Run env (start flags typed)))).
Proof.
  destruct (Run_to_account env (start flags typed))
    as (c0 & Hc & [(Hbad & _) | (s3 & HR & Ht & Hn & Hp & Hk)]).
  { intros Hok. now contradiction Hbad. }
  rewrite HR. intros _.
  pose proof (Run_account_frame env s3) as [Ho _].
  assert (Hf : flags_of (snd (Run_account env s3)) = flags_of s3)
    by (unfold flags_of; now rewrite Ho).
  rewrite Hf. repeat split; auto.
  rewrite Run_account_eq.
  destruct (GetOrCreateServiceAccount_result env _ _ _) as [path err]. simpl.
  apply in_or_app. right. unfold account_calls. simpl. tauto.
Qed.

Lemma Run_success_fills_flags_witness :
  Name (flags_of (snd (Run (sample ["only-proj"] (answered true) (answered "x") "k")
                         (start {| Name := ""; Project := ""; SkipLogin := true |}
                            ["svc-account"])))) <> "".
Proof.
  apply (Run_success_fills_flags
           (sample ["only-proj"] (answered true) (answered "x") "k")
           {| Name := ""; Project := ""; SkipLogin := true |} ["svc-account"]).
  reflexivity.
Defined.

(** X11.  When the project has to be resolved and the resolver fails, [Run]
    stops there: it returns the resolver's error in the state the resolver
    left, so Flags.Project stays empty and no account call follows. *)
Theorem Run_resolver_fails (env : Collaborators)
    (flags : CreateGkeServiceAccountFlags) (typed : list string)
    (s1 s2 s3 : State) (projectId : string) (e : error_value) :
  Project flags = "" ->
  Run_login env (start flags typed) = (err_nil, s1) ->
  Run_name env s1 = (err_nil, s2) ->
  getGoogleProjectId env s2 = ((projectId, Some e), s3) ->
  Run env (start flags typed) = (Some e, s3) /\
  Project (flags_of s3) = "" /\
  forall c, In c (trace s3) -> is_account_call c = false.
Proof.
  intros He H1 H2 H3.
  pose proof (Run_login_frame env (start flags typed)) as [Ho1 _].
  pose proof (Run_name_frame env s1) as [Hp2 _].
  rewrite H1 in Ho1; simpl in Ho1. rewrite H2 in Hp2; simpl in Hp2.
  assert (Hp : Project (flags_of s2) = "").
  { rewrite Hp2. unfold flags_of. rewrite Ho1. exact He. }
  assert (HR : Run env (start flags typed) = (Some e, s3)).
  { rewrite Run_steps; cbv zeta. rewrite H1; simpl. rewrite H2; simpl.
    rewrite (Run_project_resolved env s2 Hp), H3. reflexivity. }
  split; [exact HR |]. split.
  - destruct (getGoogleProjectId_frame env s2) as (Ho3 & _).
    rewrite H3 in Ho3; simpl in Ho3. unfold flags_of in *. now rewrite Ho3.
  - intros c Hin.
    pose proof (Run_login_trace env (start flags typed)) as Ht1.
    rewrite H1 in Ht1; simpl in Ht1.
    destruct (Run_name_trace env s1) as (c2 & Ht2 & Hc2 & _).
    rewrite H2 in Ht2; simpl in Ht2.
    destruct (getGoogleProjectId_frame env s2) as (_ & _ & c3 & Ht3 & Hc3).
    rewrite H3 in Ht3; simpl in Ht3.
    rewrite Ht3, Ht2, Ht1 in Hin.
    apply in_app_or in Hin. destruct Hin as [Hin | Hin].
    + apply in_app_or in Hin. destruct Hin as [Hin | Hin].
      * change (flags_of (start flags typed)) with flags in Hin.
        destruct (SkipLogin flags); simpl in Hin; [contradiction |].
        destruct Hin as [<- | []]. reflexivity.
      * pose proof (forallb_In _ _ _ Hc2 Hin) as Hi.
        now destruct (before_account_kind c (Input_call_before_account c Hi)).
    + pose proof (forallb_In _ _ _ Hc3 Hin) as Hr.
      now destruct (before_account_kind c (resolver_call_before_account c Hr)).
Qed.

Lemma Run_resolver_fails_witness :
  Run sample_listing_fails
    (start {| Name := "svc-account"; Project := ""; SkipLogin := true |} [])
  = (Some (opaqueError "exit status 1"),
     record (start {| Name := "svc-account"; Project := ""; SkipLogin := true |} [])
       [gke_GetGoogleProjects_call]).
Proof.
  apply (Run_resolver_fails sample_listing_fails
           {| Name := "svc-account"; Project := ""; SkipLogin := true |} []
           (start {| Name := "svc-account"; Project := ""; SkipLogin := true |} [])
           (start {| Name := "svc-account"; Project := ""; SkipLogin := true |} [])
           (record (start {| Name := "svc-account"; Project := ""; SkipLogin := true |} [])
              [gke_GetGoogleProjects_call])
           "" (opaqueError "exit status 1"));
    reflexivity.
Defined.

(** X12.  When the --name flag is given, whatever its length, the run never
    shows the name prompt: no text-prompt call is made, no typed line is
    read, and Flags.Name ends as it was given. *)
Theorem Run_name_flag_given (env : Collaborators)
    (flags : CreateGkeServiceAccountFlags) (typed : list string) :
  Name flags <> "" ->
  Name (flags_of (snd (Run env (start flags typed)))) = Name flags /\
  keyboard (snd (Run env (start flags typed))) = typed /\
  forall c, In c (trace (snd (Run env (start flags typed)))) -> is_Input_call c = false.
Proof.
  intros Hne. rewrite Run_steps; cbv zeta.
  pose proof (Run_login_frame env (start flags typed)) as [Ho1 Hk1].
  pose proof (Run_login_trace env (start flags typed)) as Ht1.
  change (flags_of (start flags typed)) with flags in Ht1.
  destruct (Run_login env (start flags typed)) as [e1 s1]; simpl in *.
  assert (Hf1 : flags_of s1 = flags) by (unfold flags_of; now rewrite Ho1).
  assert (Hlogin : forall c, In c (trace s1) -> is_Input_call c = false).
  { intros c. rewrite Ht1. destruct (SkipLogin flags); simpl; [contradiction |].
    intros [<- | []]. reflexivity. }
  destruct (is_set e1); simpl.
  { rewrite Hf1. now repeat split. }
  assert (Hne1 : Name (flags_of s1) <> "") by now rewrite Hf1.
  rewrite (Run_name_given env s1 Hne1). simpl.
  pose proof (Run_project_frame env s1) as (Hn3 & _ & _).
  pose proof (Run_project_keyboard env s1) as Hk3.
  destruct (Run_project_trace env s1) as (c3 & Ht3 & Hc3 & _).
  destruct (Run_project env s1) as [e3 s3]; simpl in *.
  assert (Hproj : forall c, In c (trace s3) -> is_Input_call c = false).
  { intros c. rewrite Ht3. intros Hin. apply in_app_or in Hin.
    destruct Hin as [Hin | Hin]; [now apply Hlogin |].
    apply resolver_call_not_Input. exact (forallb_In _ _ _ Hc3 Hin). }
  destruct (is_set e3); simpl.
  { rewrite Hn3, Hf1, Hk3, Hk1. now repeat split. }
  pose proof (Run_account_frame env s3) as [Ho4 Hk4].
  rewrite Run_account_eq in *.
  destruct (GetOrCreateServiceAccount_result env _ _ _) as [path err]; simpl in *.
  repeat split.
  - rewrite <- Hf1, <- Hn3. reflexivity.
  - rewrite <- Hk1, <- Hk3. reflexivity.
  - intros c Hin. apply in_app_or in Hin.
    destruct Hin as [Hin | Hin]; [now apply Hproj |].
    exact (account_call_not_Input _ _ _ _ _ Hin).
Qed.

Lemma Run_name_flag_given_witness :
  Name (flags_of (snd (Run (sample ["only-proj"] (answered true) (answered "x") "k")
                         (start {| Name := "abc"; Project := ""; SkipLogin := false |}
                            ["svc-account"]))))
  = "abc"
  /\ keyboard (snd (Run (sample ["only-proj"] (answered true) (answered "x") "k")
                      (start {| Name := "abc"; Project := ""; SkipLogin := false |}
                         ["svc-account"])))
     = ["svc-account"].
Proof.
  destruct (Run_name_flag_given
              (sample ["only-proj"] (answered true) (answered "x") "k")
              {| Name := "abc"; Project := ""; SkipLogin := false |} ["svc-account"])
    as (Hn & Hk & _).
  - discriminate.
  - split; [exact Hn | exact Hk].
Defined.

(** X13.  The calls of a run come in step order: the login call (unless
    skipped), then only rounds of the name prompt, then only calls of the
    project resolver, and last the account step, which is either absent or
    the home-directory lookup followed by a single GetOrCreateServiceAccount
    call and at most the key notice.  So no account is created before all
    questions are answered, and nothing is asked afterwards. *)
Theorem Run_calls_in_step_order (env : Collaborators)
    (flags : CreateGkeServiceAccountFlags) (typed : list string) :
  exists c2 c3 c4,
    trace (snd (Run env (start flags typed)))
    = (login_calls flags ++ c2 ++ c3 ++ c4)%list /\
    forallb is_Input_call c2 = true /\
    forallb resolver_call c3 = true /\
    (c4 = [] \/
     exists name project path,
       c4 = [util_HomeDir_call;
             gke_GetOrCreateServiceAccount_call name project (HomeDir_result env)] \/
       c4 = [util_HomeDir_call;
             gke_GetOrCreateServiceAccount_call name project (HomeDir_result env);
             key_notice path]).
Proof.
  destruct (Run_shape env (start flags typed))
    as (c2 & c3 & c4 & Ht & Hc2 & Hc3 & _ & H4).
  exists c2, c3, c4. repeat split; auto.
  destruct H4 as [[-> _] | (s3 & path & -> & _)]; [now left | right].
  exists (Name (flags_of s3)), (Project (flags_of s3)), path.
  unfold account_calls.
  destruct (is_set (fst (Run env (start flags typed)))); [now left | now right].
Qed.

(** X14.  End to end, with neither flag given, the login step passing and
    exactly one, non-empty, existing project: the first typed line of at
    least 6 bytes becomes Flags.Name, the only project becomes
    Flags.Project without any question, GetOrCreateServiceAccount is called
    with these two and its error is what [Run] returns; the key path is
    logged when that error is nil.  Lines typed after the name stay
    unread. *)
Theorem Run_prompted_name_single_project (env : Collaborators)
    (flags : CreateGkeServiceAccountFlags) (short : list string) (good : string)
    (rest : list string) (p : string) :
  login_passes env flags ->
  Name flags = "" ->
  Project flags = "" ->
  Forall (fun line => len line < 6) short ->
  6 <= len good ->
  GetGoogleProjects_result env = ([p], err_nil) ->
  p <> "" ->
  Run env (start flags (short ++ good :: rest))
  = (snd (GetOrCreateServiceAccount_result env good p (HomeDir_result env)),
     {| opts := {| Flags := {| Name := good; Project := p;
                               SkipLogin := SkipLogin flags |} |};
        keyboard := rest;
        trace := login_calls flags ++ rejected_rounds short
                 ++ [name_prompt_shown; gke_GetGoogleProjects_call; only_project_notice p;
                     util_HomeDir_call;
                     gke_GetOrCreateServiceAccount_call good p (HomeDir_result env)]
                 ++ (if is_set (snd (GetOrCreateServiceAccount_result env good p
                                       (HomeDir_result env)))
                     then []
                     else [key_notice (fst (GetOrCreateServiceAccount_result env good p
                                              (HomeDir_result env)))]) |}).
Proof.
  intros Hl Hn Hp Hshort Hgood Hps Hne.
  rewrite Run_steps; cbv zeta.
  rewrite (Run_login_passes env (start flags (short ++ good :: rest)) Hl).
  change (flags_of (start flags (short ++ good :: rest))) with flags.
  set (s1 := record (start flags (short ++ good :: rest)) (login_calls flags)).
  cbn [fst snd is_set err_nil].
  rewrite (Run_name_takes_first_valid env s1 short good rest Hn eq_refl Hshort Hgood).
  cbn [fst snd is_set err_nil].
  set (s2 := {| opts := _; keyboard := rest; trace := _ |}).
  assert (Hp2 : Project (flags_of s2) = "") by exact Hp.
  rewrite (Run_project_resolved env s2 Hp2).
  rewrite (getGoogleProjectId_one env s2 p Hps).
  apply string_eqb_empty in Hne. rewrite Hne.
  cbn [fst snd is_set err_nil].
  rewrite Run_account_eq. unfold account_calls, set_Project.
  cbn [fst snd flags_of opts Flags Name Project SkipLogin record keyboard trace s2 s1 start].
  destruct (GetOrCreateServiceAccount_result env good p (HomeDir_result env))
    as [path err].
  subst s2 s1. unfold record, start, flags_of. simpl.
  rewrite <- !app_assoc. reflexivity.
Qed.

Lemma Run_prompted_name_single_project_witness :
  fst (Run (sample ["only-proj"] (answered true) (answered "x") "/home/jx/.jx/key.json")
         (start {| Name := ""; Project := ""; SkipLogin := true |}
            (["svc"] ++ "svc-account" :: ["unread"])))
  = err_nil.
Proof.
  rewrite (Run_prompted_name_single_project
             (sample ["only-proj"] (answered true) (answered "x") "/home/jx/.jx/key.json")
             {| Name := ""; Project := ""; SkipLogin := true |}
             ["svc"] "svc-account" ["unread"] "only-proj").
  - reflexivity.
  - left. reflexivity.
  - reflexivity.
  - reflexivity.
  - repeat constructor.
  - vm_compute. lia.
  - reflexivity.
  - discriminate.
Defined.

(** X15.  [Run] never changes Flags.SkipLogin, however it ends. *)
Theorem Run_keeps_SkipLogin (env : Collaborators)
    (flags : CreateGkeServiceAccountFlags) (typed : list string) :
  SkipLogin (flags_of (snd (Run env (start flags typed)))) = SkipLogin flags.
Proof.
  destruct (Run_to_account env (start flags typed))
    as (c0 & _ & [(_ & _ & Hk) | (s3 & HR & _ & _ & _ & Hk)]).
  - exact Hk.
  - rewrite HR. pose proof (Run_account_frame env s3) as [Ho _].
    unfold flags_of in *. now rewrite Ho.
Qed.
